(** * Certificate provisioning of containerlab: [cert/cert.go]

    A shallow embedding of package [cert] (root CA bootstrap, leaf
    certificate issuance, on-disk certificate store) and the properties
    its specification states about it.

    The package is glue code around three kinds of collaborators:
    - the file system ([os.Stat] and the helpers of package [utils]),
      modelled as a finite map from path text to entries;
    - [path/filepath.Join] and [text/template], modelled concretely;
    - [encoding/json] and the cfssl library, which are taken as the
      operations of a capability interface ([Externals]). *)

From Stdlib Require Import Ascii.
From stdpp Require Import base option list strings gmap fin_maps.

(** ** Strings *)

Module Str.

(** [has_slash s]: the path separator occurs in [s]. *)
Fixpoint has_slash (s : string) : bool :=
  match s with
  | "" => false
  | String c r => if Ascii.eqb c "/" then true else has_slash r
  end.

(** [strings.Join(elems, sep)]. *)
Fixpoint join (sep : string) (elems : list string) : string :=
  match elems with
  | [] => ""
  | [e] => e
  | e :: rest => e +:+ sep +:+ join sep rest
  end.

End Str.

(** ** Paths: [path/filepath] on a Unix host

    [filepath.Clean] is modelled on path elements, following the four
    rules of its documentation: (1) runs of separators collapse, (2) [.]
    elements are dropped, (3) an inner [..] is dropped together with the
    element before it, (4) [..] at the start of a rooted path is dropped.
    The result of cleaning an empty path is ["."]. *)

Module filepath.

(** The elements of a path between its separators; a path without a
    separator is its own single element. *)
Fixpoint elements (p : string) : list string :=
  match p with
  | "" => [""]
  | String c r =>
      if Ascii.eqb c "/" then "" :: elements r
      else match elements r with
           | e :: es => String c e :: es
           | [] => [String c ""]
           end
  end.

Definition rooted (p : string) : bool :=
  match p with
  | String c _ => Ascii.eqb c "/"
  | "" => false
  end.

(** One element processed by [Clean]; [out] holds the elements kept so
    far, last one first. A [..] removes the last kept element when
    that is an ordinary one; otherwise it is dropped on a rooted path
    and kept on a relative one. *)
Definition clean_step (isRooted : bool) (out : list string) (e : string)
  : list string :=
  if String.eqb e "" then out
  else if String.eqb e "." then out
  else if String.eqb e ".." then
    match out with
    | top :: below => if String.eqb top ".." then e :: out else below
    | [] => if isRooted then [] else [e]
    end
  else e :: out.

Definition clean_render (isRooted : bool) (out : list string) : string :=
  match out with
  | [] => if isRooted then "/" else "."
  | _ => (if isRooted then "/" else "") +:+ Str.join "/" (rev out)
  end.

Definition Clean (p : string) : string :=
  if String.eqb p "" then "."
  else clean_render (rooted p)
         (fold_left (clean_step (rooted p)) (elements p) []).

(** [filepath.Join(a, b)]: empty elements are ignored, the rest is
    joined with a separator and cleaned; all empty gives [""]. *)
Definition Join (a b : string) : string :=
  if String.eqb a "" then
    if String.eqb b "" then "" else Clean b
  else Clean (a +:+ "/" +:+ b).

End filepath.

(** ** Go values shared by the package *)

(** A [[]byte]; [string(b)] and [[]byte(s)] are the conversions of the
    Standard Library between [string] and [list Byte.byte]. *)
Abbreviation bytes := (list Byte.byte).

Definition to_string (b : bytes) : string := String.string_of_list_byte b.
Definition to_bytes (s : string) : bytes := String.list_byte_of_string s.

(** Go [error] values the package produces or passes on. [ErrNotExist]
    is the error [os.IsNotExist] recognises; [ErrIO] is any other file
    error; [ErrLib] is an error of [encoding/json] or cfssl; [Errorf] is
    [fmt.Errorf(ctx + "%v", err)]; [ErrPanic] stands for a run-time
    panic, which ends the call. *)
Inductive error : Type :=
| ErrNotExist (op path : string)
| ErrIO (op path : string)
| ErrParse (name msg : string)
| ErrExec (name field : string)
| ErrLib (msg : string)
| ErrPanic (msg : string)
| Errorf (ctx : string) (err : error).

Definition IsNotExist (e : error) : bool :=
  match e with
  | ErrNotExist _ _ => true
  | _ => false
  end.

(** The value half and the error half of a library call [v, err := f()]. *)
Inductive result (A : Type) : Type :=
| Ok (v : A)
| Err (e : error).
Arguments Ok {A} v.
Arguments Err {A} e.

(** ** [text/template], restricted to field actions

    A template is text with actions [{{.Field}}]; executing it writes the
    text and, for each action, the printed value of the field of the
    data. Other actions are outside the model and refused by [Parse]. *)

Module template.

Inductive node : Type :=
| Text (s : string)
| Field (name : string).

Record Template : Type := { Name : string; Tree : list node }.

Definition is_ident_char (c : ascii) : bool :=
  let n := nat_of_ascii c in
  ((65 <=? n) && (n <=? 90)) || ((97 <=? n) && (n <=? 122))
  || ((48 <=? n) && (n <=? 57)) || (n =? 95).

Fixpoint all_ident (s : string) : bool :=
  match s with
  | "" => true
  | String c r => is_ident_char c && all_ident r
  end.

(** The field named by the text of an action, [.Field]. *)
Definition field_of (action : string) : option string :=
  match action with
  | String c name =>
      if Ascii.eqb c "." && negb (String.eqb name "") && all_ident name
      then Some name else None
  | "" => None
  end.

Definition text_node (cur : string) : list node :=
  if String.eqb cur "" then [] else [Text cur].

(** [scan inAction cur s]: [cur] is the text (or the action) read so
    far, [s] what is left. *)
Fixpoint scan (name : string) (inAction : bool) (cur s : string)
  : result (list node) :=
  match s with
  | "" =>
      if inAction then Err (ErrParse name "unclosed action")
      else Ok (text_node cur)
  | String c r =>
      let next := scan name inAction (cur +:+ String c "") r in
      match r with
      | String c' r' =>
          if negb inAction && Ascii.eqb c "{" && Ascii.eqb c' "{" then
            match scan name true "" r' with
            | Ok rest => Ok (text_node cur ++ rest)
            | Err e => Err e
            end
          else if inAction && Ascii.eqb c "}" && Ascii.eqb c' "}" then
            match field_of cur with
            | Some f =>
                match scan name false "" r' with
                | Ok rest => Ok (Field f :: rest)
                | Err e => Err e
                end
            | None => Err (ErrParse name "unsupported action")
            end
          else next
      | "" => next
      end
  end.

(** [template.New(name).Parse(text)]. *)
Definition Parse (name text : string) : result Template :=
  match scan name false "" text with
  | Ok tree => Ok {| Name := name; Tree := tree |}
  | Err e => Err e
  end.

Fixpoint exec (name : string) (data : string -> option string)
    (tree : list node) (buf : string) : result string :=
  match tree with
  | [] => Ok buf
  | Text s :: rest => exec name data rest (buf +:+ s)
  | Field f :: rest =>
      match data f with
      | Some v => exec name data rest (buf +:+ v)
      | None => Err (ErrExec name f)
      end
  end.

(** [t.Execute(buf, data)] on an empty buffer: the bytes written, or
    the error of the first field the data does not have. *)
Definition Execute (t : Template) (data : string -> option string)
  : result bytes :=
  match exec (Name t) data (Tree t) "" with
  | Ok out => Ok (to_bytes out)
  | Err e => Err e
  end.

End template.

(** ** The file system and the log

    The file system is a finite map from path text to entries. Two
    spellings of one path are two keys: the package builds every path it
    reads or writes with [filepath.Join], which spells a path in one
    way. A file may be written at any path: whether the directory
    above it exists is not checked. Permissions are recorded and never
    checked. *)

Inductive entry : Type :=
| Dir (perm : N)
| File (content : bytes).

Definition IsDir (e : entry) : bool :=
  match e with
  | Dir _ => true
  | File _ => false
  end.

Inductive level : Type := Info | Warning | Debug.

(** What a call of the package can observe and change: the files, and
    the lines logged so far (oldest first). *)
Record World : Type := {
  fs : gmap string entry;
  logs : list (level * string)
}.

Definition set_fs (f : gmap string entry -> gmap string entry) (w : World)
  : World :=
  {| fs := f (fs w); logs := logs w |}.

Module log.
Definition emit (l : level) (msg : string) (w : World) : World :=
  {| fs := fs w; logs := logs w ++ [(l, msg)] |}.
End log.

Module os.
(** [os.Stat(path)]: the entry at [path], or the error for a path that
    does not exist. *)
Definition Stat (path : string) (w : World) : result entry :=
  match fs w !! path with
  | Some e => Ok e
  | None => Err (ErrNotExist "stat" path)
  end.
End os.

(** Package [utils] of this repository. *)
Module utils.

(** Modelled from the spec: [utils.CreateDirectory] is not among the
    sources. "creating the parent directory if absent (directory
    creation is idempotent: create-if-missing, not create-or-fail)":
    a path that exists is left as it is, whatever it is. *)
Definition CreateDirectory (path : string) (perm : N) (w : World) : World :=
  match fs w !! path with
  | None => set_fs (insert path (Dir perm)) w
  | Some _ => w
  end.

(** Modelled from the spec: [utils.CreateFile] is not among the
    sources. "Writes are unconditional overwrites": the file holds the
    content given, whatever was at the path before. *)
Definition CreateFile (file content : string) (w : World) : World :=
  set_fs (insert file (File (to_bytes content))) w.

(** Modelled from the spec: [utils.ReadFileContent] is not among the
    sources. "a raw byte-level read" that "fails with a distinguishable
    not found condition if ... either file is absent". *)
Definition ReadFileContent (file : string) (w : World) : result bytes :=
  match fs w !! file with
  | Some (File content) => Ok content
  | Some (Dir _) => Err (ErrIO "read" file)
  | None => Err (ErrNotExist "open" file)
  end.

End utils.

(** ** Node registry: [types.NodeConfig] and [nodes.Node] *)

Module types.
Record NodeConfig : Type := {
  ShortName : string;
  LongName : string;
  Fqdn : string;
  Kind : string
}.
End types.

Module nodes.
(** A [nodes.Node], as far as this package looks at it: its [Config()]. *)
Record Node : Type := { Config : types.NodeConfig }.
End nodes.

(** ** cfssl and [encoding/json]: the capability interface *)

Module csr.
Record KeyRequest : Type := { A : string; S : N }.

Record Name : Type := { C : string; L : string; O : string; OU : string }.

Record CertificateRequest : Type := {
  CN : string;
  Names : list Name;
  Hosts : list string;
  KeyReq : option KeyRequest;
  CAExpiry : string
}.
End csr.

Module signer.
Record SignRequest : Type := {
  Hosts : list string;
  Request : string
}.
End signer.

(** The library calls the package makes. Each stands for the call's
    outcome on the values the package passes; key generation and
    signing are not modelled further.
    - [json_Unmarshal data req]: [json.Unmarshal(data, &req)];
    - [csr_NewKeyRequest]: the library's default key request;
    - [initca_New req]: certificate, CSR and key of a new self-signed CA;
    - [gen_ProcessRequest req]: [ProcessRequest] of a [csr.Generator]
      with [genkey.Validator], giving CSR and key;
    - [universal_NewSigner files certFile keyFile]: a local signer from
      the two files named, read from the file system;
    - [Sign s req]: the signed certificate;
    - [generator_CSRNoHostMessage]: the library's warning text. *)
Class Externals : Type := {
  Signer : Type;
  json_Unmarshal :
    bytes -> csr.CertificateRequest -> result csr.CertificateRequest;
  csr_NewKeyRequest : csr.KeyRequest;
  initca_New : csr.CertificateRequest -> result (bytes * bytes * bytes);
  gen_ProcessRequest : csr.CertificateRequest -> result (bytes * bytes);
  universal_NewSigner :
    gmap string entry -> string -> string -> result Signer;
  Sign : Signer -> signer.SignRequest -> result bytes;
  generator_CSRNoHostMessage : string
}.

(** ** Package [cert] *)

Module cert.

Record Certificates : Type := {
  Key : bytes;
  Csr : bytes;
  Cert : bytes
}.

(** [fmt]'s print of a [[]string]: the elements between brackets. *)
Definition print_strings (l : list string) : string :=
  "[" +:+ Str.join " " l +:+ "]".

(** [fmt]'s print of a [map[string]string], from its entries in key
    order. *)
Definition print_map (m : list (string * string)) : string :=
  "map[" +:+ Str.join " " (map (λ kv, kv.1 +:+ ":" +:+ kv.2) m) +:+ "]".

Module CertInput.
Record t : Type := {
  Hosts : list string;
  CommonName : string;
  Country : string;
  Locality : string;
  Organization : string;
  OrganizationUnit : string;
  Expiry : string;
  Name : string;
  LongName : string;
  Fqdn : string;
  Prefix : string
}.

(** The printed value of field [f], as a template action sees it. *)
Definition field (i : t) (f : string) : option string :=
  if String.eqb f "Hosts" then Some (print_strings (Hosts i))
  else if String.eqb f "CommonName" then Some (CommonName i)
  else if String.eqb f "Country" then Some (Country i)
  else if String.eqb f "Locality" then Some (Locality i)
  else if String.eqb f "Organization" then Some (Organization i)
  else if String.eqb f "OrganizationUnit" then Some (OrganizationUnit i)
  else if String.eqb f "Expiry" then Some (Expiry i)
  else if String.eqb f "Name" then Some (Name i)
  else if String.eqb f "LongName" then Some (LongName i)
  else if String.eqb f "Fqdn" then Some (Fqdn i)
  else if String.eqb f "Prefix" then Some (Prefix i)
  else None.
End CertInput.

Module CaRootInput.
Record t : Type := {
  CommonName : string;
  Country : string;
  Locality : string;
  Organization : string;
  OrganizationUnit : string;
  Expiry : string;
  Prefix : string;
  Names : list (string * string);
  NamePrefix : string
}.

Definition field (i : t) (f : string) : option string :=
  if String.eqb f "CommonName" then Some (CommonName i)
  else if String.eqb f "Country" then Some (Country i)
  else if String.eqb f "Locality" then Some (Locality i)
  else if String.eqb f "Organization" then Some (Organization i)
  else if String.eqb f "OrganizationUnit" then Some (OrganizationUnit i)
  else if String.eqb f "Expiry" then Some (Expiry i)
  else if String.eqb f "Prefix" then Some (Prefix i)
  else if String.eqb f "Names" then Some (print_map (Names i))
  else if String.eqb f "NamePrefix" then Some (NamePrefix i)
  else None.
End CaRootInput.

(** The template texts. [q s] is [s] between double quotes, [kv k v]
    a quoted key and a quoted value, [text ls] the lines [ls], each
    ended by a newline. *)
Definition dq : string := String (ascii_of_nat 34) "".
Definition nl : string := String (ascii_of_nat 10) "".
Definition q (s : string) : string := dq +:+ s +:+ dq.
Definition kv (k v : string) : string := q k +:+ ": " +:+ q v.
Definition text (ls : list string) : string :=
  fold_right (λ l rest, l +:+ nl +:+ rest) "" ls.

Definition rootCACSRTempl : string := text [
  "{";
  "    " +:+ kv "CN" "{{.Prefix}} Root CA" +:+ ",";
  "    " +:+ q "key" +:+ ": {";
  "       " +:+ kv "algo" "rsa" +:+ ",";
  "       " +:+ q "size" +:+ ": 2048";
  "    },";
  "    " +:+ q "names" +:+ ": [{";
  "       " +:+ kv "C" "BE" +:+ ",";
  "       " +:+ kv "L" "Antwerp" +:+ ",";
  "       " +:+ kv "O" "Nokia" +:+ ",";
  "       " +:+ kv "OU" "Container lab";
  "    }],";
  "    " +:+ q "ca" +:+ ": {";
  "       " +:+ kv "expiry" "262800h";
  "    }";
  "}" ].

Definition NodeCSRTempl : string := text [
  "{";
  "    " +:+ kv "CN" "{{.Name}}.{{.Prefix}}.io" +:+ ",";
  "    " +:+ q "key" +:+ ": {";
  "      " +:+ kv "algo" "rsa" +:+ ",";
  "      " +:+ q "size" +:+ ": 2048";
  "    },";
  "    " +:+ q "names" +:+ ": [{";
  "      " +:+ kv "C" "BE" +:+ ",";
  "      " +:+ kv "L" "Antwerp" +:+ ",";
  "      " +:+ kv "O" "Nokia" +:+ ",";
  "      " +:+ kv "OU" "Container lab";
  "    }],";
  "    " +:+ q "hosts" +:+ ": [";
  "      " +:+ q "{{.Name}}" +:+ ",";
  "      " +:+ q "{{.LongName}}" +:+ ",";
  "      " +:+ q "{{.Fqdn}}";
  "    ]";
  "}" ].

(** The pair a function returning a [Certificates] pointer and an
    [error] gives back: either half may be nil. *)
Abbreviation outcome := (option Certificates * option error)%type.

(** Directory permissions [0755]. *)
Definition perm0755 : N := 493.

Definition writeCertFiles (certs : Certificates) (filesPrefix : string)
    (w : World) : World :=
  let w := utils.CreateFile (filesPrefix +:+ ".pem") (to_string (Cert certs)) w in
  let w := utils.CreateFile (filesPrefix +:+ "-key.pem") (to_string (Key certs)) w in
  utils.CreateFile (filesPrefix +:+ ".csr") (to_string (Csr certs)) w.

Section WithExternals.
Context `{Externals}.

(** The request both generators unmarshal into: empty but for the
    library's default key request. *)
Definition newRequest : csr.CertificateRequest :=
  {| csr.CN := ""; csr.Names := []; csr.Hosts := [];
     csr.KeyReq := Some csr_NewKeyRequest; csr.CAExpiry := "" |}.

Definition GenerateRootCa (labCARoot : string)
    (csrRootJsonTpl : template.Template) (input : CaRootInput.t)
    (w : World) : outcome * World :=
  let w := log.emit Info "Creating root CA" w in
  let w := utils.CreateDirectory labCARoot perm0755 w in
  match template.Execute csrRootJsonTpl (CaRootInput.field input) with
  | Err err => ((None, Some err), w)
  | Ok csrBuff =>
  match json_Unmarshal csrBuff newRequest with
  | Err err => ((None, Some err), w)
  | Ok req =>
  match initca_New req with
  | Err err => ((None, Some err), w)
  | Ok (cert, csrPEM, key) =>
      let certs := {| Key := key; Csr := csrPEM; Cert := cert |} in
      let w := writeCertFiles certs
                 (filepath.Join labCARoot (CaRootInput.NamePrefix input)) w in
      ((Some certs, None), w)
  end end end.

Definition GenerateCert (ca caKey : string)
    (csrJSONTpl : template.Template) (input : CertInput.t)
    (targetPath : string) (w : World) : outcome * World :=
  let w := utils.CreateDirectory targetPath perm0755 w in
  match template.Execute csrJSONTpl (CertInput.field input) with
  | Err err => ((None, Some err), w)
  | Ok csrBuff =>
  match json_Unmarshal csrBuff newRequest with
  | Err err => ((None, Some err), w)
  | Ok req =>
  match gen_ProcessRequest req with
  | Err err => ((None, Some err), w)
  | Ok (csrBytes, key) =>
  match universal_NewSigner (fs w) ca caKey with
  | Err err => ((None, Some err), w)
  | Ok s =>
  let signReq :=
    {| signer.Hosts := []; signer.Request := to_string csrBytes |} in
  match Sign s signReq with
  | Err err => ((None, Some err), w)
  | Ok cert =>
      let w :=
        if (length (signer.Hosts signReq) =? 0)
           && (length (csr.Hosts req) =? 0)
        then log.emit Warning generator_CSRNoHostMessage w
        else w in
      let certs := {| Key := key; Csr := csrBytes; Cert := cert |} in
      let w := writeCertFiles certs
                 (filepath.Join targetPath (CertInput.Name input)) w in
      ((Some certs, None), w)
  end end end end end.

End WithExternals.

Definition RetrieveNodeCertData (n : types.NodeConfig) (labCADir : string)
    (w : World) : outcome * World :=
  let nodeCertFilesDir := filepath.Join labCADir (types.ShortName n) in
  let nodeCertFile :=
    filepath.Join nodeCertFilesDir (types.ShortName n +:+ ".pem") in
  let nodeKeyFile :=
    filepath.Join nodeCertFilesDir (types.ShortName n +:+ "-key.pem") in
  match os.Stat nodeCertFilesDir w with
  | Err err => ((None, Some err), w)
  | Ok stat =>
      if negb (IsDir stat) then ((None, None), w)
      else
        match utils.ReadFileContent nodeCertFile w with
        | Err err => ((None, Some err), w)
        | Ok cert =>
        match utils.ReadFileContent nodeKeyFile w with
        | Err err => ((None, Some err), w)
        | Ok key =>
            ((Some {| Key := key; Csr := []; Cert := cert |}, None), w)
        end end
  end.

Section WithExternals.
Context `{Externals}.

(** The loop over the nodes: is there a node of kind [srl]? *)
Definition hasCAKind (ns : gmap string nodes.Node) : bool :=
  existsb (λ kn, String.eqb (types.Kind (nodes.Config kn.2)) "srl")
    (map_to_list ns).

Definition exists_at (path : string) (w : World) : bool :=
  match os.Stat path w with
  | Ok _ => true
  | Err _ => false
  end.

Definition CreateRootCA (configName labCARoot : string)
    (ns : gmap string nodes.Node) (w : World) : option error * World :=
  let rootCANeeded := hasCAKind ns in
  if negb rootCANeeded then (None, w) else
  let rootCaCertPath := filepath.Join labCARoot "root-ca.pem" in
  let rootCaKeyPath := filepath.Join labCARoot "root-ca-key.pem" in
  let rootCaCertExists := exists_at rootCaCertPath w in
  let rootCaKeyExists := exists_at rootCaKeyPath w in
  let rootCANeeded :=
    if rootCaCertExists && rootCaKeyExists then false
    else rootCANeeded in
  if negb rootCANeeded then (None, w) else
  match template.Parse "ca-csr" rootCACSRTempl with
  | Err err =>
      (Some (Errorf "failed to parse Root CA CSR Template: " err), w)
  | Ok tpl =>
      let input :=
        {| CaRootInput.CommonName := ""; CaRootInput.Country := "";
           CaRootInput.Locality := ""; CaRootInput.Organization := "";
           CaRootInput.OrganizationUnit := ""; CaRootInput.Expiry := "";
           CaRootInput.Prefix := configName; CaRootInput.Names := [];
           CaRootInput.NamePrefix := "root-ca" |} in
      match GenerateRootCa labCARoot tpl input w with
      | ((_, Some err), w) =>
          (Some (Errorf "failed to generate rootCa: " err), w)
      | ((None, None), w) =>
          (Some (ErrPanic "nil pointer dereference"), w)
      | ((Some rootCerts, None), w) =>
          let w := log.emit Debug
                     ("root CSR: " +:+ to_string (Csr rootCerts)) w in
          let w := log.emit Debug
                     ("root Cert: " +:+ to_string (Cert rootCerts)) w in
          let w := log.emit Debug
                     ("root Key: " +:+ to_string (Key rootCerts)) w in
          (None, w)
      end
  end.

End WithExternals.

End cert.

(** ** Notions the properties are stated with *)

(** An ordinary path element: not empty, not [.], not [..]. *)
Definition ordinary (e : string) : bool :=
  negb (String.eqb e "") && negb (String.eqb e ".")
  && negb (String.eqb e "..").

(** A plain name: one ordinary element, without a separator. *)
Definition plain (n : string) : bool :=
  negb (Str.has_slash n) && ordinary n.

(** What [Clean] has written before an ordinary last element: nothing
    or a text that ends with a separator. *)
Definition clean_prefix (isRooted : bool) (out : list string) : string :=
  match out with
  | [] => if isRooted then "/" else ""
  | _ => (if isRooted then "/" else "") +:+ Str.join "/" (rev out) +:+ "/"
  end.

(** The kinds of node that need certificates of the lab's CA. *)
Definition CAKinds : list string := ["srl"].

(** The root CSR document for a lab: the root template with the lab's
    name in the place of its one action. *)
Definition rootCSRDoc (prefix : string) : string :=
  ("{" +:+ cert.nl +:+ "    " +:+ cert.q "CN" +:+ ": " +:+ cert.dq)
  +:+ prefix +:+
  (" Root CA" +:+ cert.dq +:+ "," +:+ cert.nl +:+ cert.text [
    "    " +:+ cert.q "key" +:+ ": {";
    "       " +:+ cert.kv "algo" "rsa" +:+ ",";
    "       " +:+ cert.q "size" +:+ ": 2048";
    "    },";
    "    " +:+ cert.q "names" +:+ ": [{";
    "       " +:+ cert.kv "C" "BE" +:+ ",";
    "       " +:+ cert.kv "L" "Antwerp" +:+ ",";
    "       " +:+ cert.kv "O" "Nokia" +:+ ",";
    "       " +:+ cert.kv "OU" "Container lab";
    "    }],";
    "    " +:+ cert.q "ca" +:+ ": {";
    "       " +:+ cert.kv "expiry" "262800h";
    "    }";
    "}" ]).

(** Both root files are there: what [CreateRootCA] checks. *)
Definition root_pair_exists (labCARoot : string) (w : World) : Prop :=
  is_Some (fs w !! filepath.Join labCARoot "root-ca.pem") ∧
  is_Some (fs w !! filepath.Join labCARoot "root-ca-key.pem").

(** The world once [GenerateRootCa] has announced itself and made sure
    of the directory. *)
Definition rootCAStarted (labCARoot : string) (w : World) : World :=
  utils.CreateDirectory labCARoot cert.perm0755
    (log.emit Info "Creating root CA" w).

(** An error to which the package has added context: the result of
    [fmt.Errorf] around another error, as [CreateRootCA] returns. *)
Definition has_context (e : error) : bool :=
  match e with
  | Errorf _ _ => true
  | _ => false
  end.

(** The file content of a path, when the path holds a file. *)
Definition file_at (w : World) (path : string) : option bytes :=
  match fs w !! path with
  | Some (File content) => Some content
  | _ => None
  end.

Section IssuanceSteps.
Context `{Externals}.

Variable tpl : template.Template.
Variable input : cert.CertInput.t.
Variable files : gmap string entry.
Variable ca caKey : string.

(** The sign request [GenerateCert] builds from a CSR. *)
Definition signRequest (csrBytes : bytes) : signer.SignRequest :=
  {| signer.Hosts := []; signer.Request := to_string csrBytes |}.

(** The five steps of issuing a leaf certificate, in order: rendering
    the template, unmarshalling the request, generating key and CSR,
    constructing the signer, signing. [issuance_fails e]: the first
    step that fails does so with [e]. *)
Inductive issuance_fails : error → Prop :=
| fails_render e :
    template.Execute tpl (cert.CertInput.field input) = Err e →
    issuance_fails e
| fails_unmarshal csrBuff e :
    template.Execute tpl (cert.CertInput.field input) = Ok csrBuff →
    json_Unmarshal csrBuff cert.newRequest = Err e →
    issuance_fails e
| fails_keygen csrBuff req e :
    template.Execute tpl (cert.CertInput.field input) = Ok csrBuff →
    json_Unmarshal csrBuff cert.newRequest = Ok req →
    gen_ProcessRequest req = Err e →
    issuance_fails e
| fails_signer csrBuff req csrBytes key e :
    template.Execute tpl (cert.CertInput.field input) = Ok csrBuff →
    json_Unmarshal csrBuff cert.newRequest = Ok req →
    gen_ProcessRequest req = Ok (csrBytes, key) →
    universal_NewSigner files ca caKey = Err e →
    issuance_fails e
| fails_sign csrBuff req csrBytes key s e :
    template.Execute tpl (cert.CertInput.field input) = Ok csrBuff →
    json_Unmarshal csrBuff cert.newRequest = Ok req →
    gen_ProcessRequest req = Ok (csrBytes, key) →
    universal_NewSigner files ca caKey = Ok s →
    Sign s (signRequest csrBytes) = Err e →
    issuance_fails e.

(** [issuance_succeeds req s certs]: all five steps succeed, with the
    request [req], the signer [s] and the bundle [certs]. *)
Inductive issuance_succeeds :
  csr.CertificateRequest → Signer → cert.Certificates → Prop :=
| succeeds csrBuff req csrBytes key s crt :
    template.Execute tpl (cert.CertInput.field input) = Ok csrBuff →
    json_Unmarshal csrBuff cert.newRequest = Ok req →
    gen_ProcessRequest req = Ok (csrBytes, key) →
    universal_NewSigner files ca caKey = Ok s →
    Sign s (signRequest csrBytes) = Ok crt →
    issuance_succeeds req s
      {| cert.Key := key; cert.Csr := csrBytes; cert.Cert := crt |}.

End IssuanceSteps.

(** The world after a successful issuance: the directory, the warning
    for a request without hosts, the three files. *)
Definition issued_world `{Externals} (targetPath name : string)
    (req : csr.CertificateRequest) (certs : cert.Certificates) (w : World)
  : World :=
  let w := utils.CreateDirectory targetPath cert.perm0755 w in
  let w := match csr.Hosts req with
           | [] => log.emit Warning generator_CSRNoHostMessage w
           | _ :: _ => w
           end in
  cert.writeCertFiles certs (filepath.Join targetPath name) w.

(** ** A small instance of the capability interface

    Certificates are text: a CA certificate is [CA:] and the common name,
    a key is [KEY:] and the common name, a signed certificate is the
    signer's certificate, [>] and the request. Unmarshalling keeps the
    key request and takes the whole document as the common name; a
    document that starts with [!] is refused. *)

Module Toy.

Definition unmarshal (data : bytes) (req : csr.CertificateRequest)
  : result csr.CertificateRequest :=
  match to_string data with
  | String c _ as doc =>
      if Ascii.eqb c "!" then Err (ErrLib "invalid character")
      else Ok {| csr.CN := doc; csr.Names := csr.Names req;
                 csr.Hosts := csr.Hosts req; csr.KeyReq := csr.KeyReq req;
                 csr.CAExpiry := csr.CAExpiry req |}
  | "" => Err (ErrLib "unexpected end of JSON input")
  end.

Definition newCA (req : csr.CertificateRequest)
  : result (bytes * bytes * bytes) :=
  Ok (to_bytes ("CA:" +:+ csr.CN req), to_bytes ("CSR:" +:+ csr.CN req),
      to_bytes ("KEY:" +:+ csr.CN req)).

Definition processRequest (req : csr.CertificateRequest)
  : result (bytes * bytes) :=
  Ok (to_bytes ("CSR:" +:+ csr.CN req), to_bytes ("KEY:" +:+ csr.CN req)).

Definition newSigner (files : gmap string entry) (certFile keyFile : string)
  : result bytes :=
  match files !! certFile, files !! keyFile with
  | Some (File c), Some (File _) => Ok c
  | _, _ => Err (ErrLib "could not read CA files")
  end.

Definition sign (s : bytes) (req : signer.SignRequest) : result bytes :=
  Ok (s ++ to_bytes (">" +:+ signer.Request req)).

(** Does [leaf] start with [root]? *)
Fixpoint verify (root leaf : bytes) : bool :=
  match root, leaf with
  | [], _ => true
  | r :: root', l :: leaf' => Byte.eqb r l && verify root' leaf'
  | _ :: _, [] => false
  end.

#[export] Instance externals : Externals := {|
  Signer := bytes;
  json_Unmarshal := unmarshal;
  csr_NewKeyRequest := {| csr.A := "ecdsa"; csr.S := 256 |};
  initca_New := newCA;
  gen_ProcessRequest := processRequest;
  universal_NewSigner := newSigner;
  Sign := sign;
  generator_CSRNoHostMessage := "This certificate lacks a hosts field."
|}.

(** Any two byte strings pass for a CA certificate and its key. *)
Definition root_pair (crt key : bytes) : Prop := True.

(** A lab [lab] with directory [lab/ca]: nothing on disk yet. *)
Definition empty : World := {| fs := ∅; logs := [] |}.

Definition config (name kind : string) : types.NodeConfig :=
  {| types.ShortName := name;
     types.LongName := "clab-lab-" +:+ name;
     types.Fqdn := name +:+ ".lab.io";
     types.Kind := kind |}.

Definition node (name kind : string) : nodes.Node :=
  {| nodes.Config := config name kind |}.

Definition srlLab : gmap string nodes.Node :=
  {[ "r1" := node "r1" "linux"; "n1" := node "n1" "srl" ]}.

Definition linuxLab : gmap string nodes.Node :=
  {[ "r1" := node "r1" "linux" ]}.

(** The lab once its root CA has been created. *)
Definition withRoot : World :=
  (cert.CreateRootCA "lab" "lab/ca/root" srlLab empty).2.

Definition caFile : string := "lab/ca/root/root-ca.pem".
Definition caKeyFile : string := "lab/ca/root/root-ca-key.pem".

Definition rootCert : bytes := to_bytes ("CA:" +:+ rootCSRDoc "lab").
Definition rootKey : bytes := to_bytes ("KEY:" +:+ rootCSRDoc "lab").

Definition leafTpl : template.Template :=
  match template.Parse "csr" cert.NodeCSRTempl with
  | Ok t => t
  | Err _ => {| template.Name := "csr"; template.Tree := [] |}
  end.

(** A template whose document the toy unmarshaller refuses. *)
Definition badTpl : template.Template :=
  {| template.Name := "csr"; template.Tree := [template.Text "!"] |}.

Definition leafInput (name : string) : cert.CertInput.t :=
  {| cert.CertInput.Hosts := []; cert.CertInput.CommonName := "";
     cert.CertInput.Country := ""; cert.CertInput.Locality := "";
     cert.CertInput.Organization := "";
     cert.CertInput.OrganizationUnit := ""; cert.CertInput.Expiry := "";
     cert.CertInput.Name := name;
     cert.CertInput.LongName := "clab-lab-" +:+ name;
     cert.CertInput.Fqdn := name +:+ ".lab.io";
     cert.CertInput.Prefix := "lab" |}.

(** Issuing the certificate of node [name], the way a node does. *)
Definition issue (name : string) : cert.outcome * World :=
  cert.GenerateCert caFile caKeyFile leafTpl (leafInput name)
    (filepath.Join "lab/ca" name) withRoot.



Definition bundle (name : string) : cert.Certificates :=
  match (issue name).1.1 with
  | Some certs => certs
  | None => {| cert.Key := []; cert.Csr := []; cert.Cert := [] |}
  end.

(** A lab where the place of the directory of [n1] is taken by a
    regular file. *)
Definition occupied : World :=
  {| fs := {[ "lab/ca/n1" := File [] ]}; logs := [] |}.

End Toy.

(** The same library on a host where no CA can be made: [initca.New]
    fails. *)
Module ToyFail.

Definition newCA (req : csr.CertificateRequest)
  : result (bytes * bytes * bytes) :=
  Err (ErrLib "failed to generate key").

Definition externals : Externals := {|
  Signer := bytes;
  json_Unmarshal := Toy.unmarshal;
  csr_NewKeyRequest := {| csr.A := "ecdsa"; csr.S := 256 |};
  initca_New := newCA;
  gen_ProcessRequest := Toy.processRequest;
  universal_NewSigner := Toy.newSigner;
  Sign := Toy.sign;
  generator_CSRNoHostMessage := "This certificate lacks a hosts field."
|}.

End ToyFail.

(** ** Canonical paths

    The elements [Clean] keeps, last one first: ordinary elements
    without a separator, above a run of [..] that only a relative path
    may have. *)

Inductive canon (isRooted : bool) : list string → Prop :=
| canon_nil : canon isRooted []
| canon_dotdot out :
    isRooted = false → Forall (λ e, e = "..") out →
    canon isRooted (".." :: out)
| canon_ord e out :
    ordinary e = true → Str.has_slash e = false → canon isRooted out →
    canon isRooted (e :: out).

(** What [Join] writes before a plain name joined to [dir]. *)
Definition dir_prefix (dir : string) : string :=
  if String.eqb dir "" then ""
  else clean_prefix (filepath.rooted dir)
         (fold_left (filepath.clean_step (filepath.rooted dir))
            (filepath.elements dir) []).

(** The node CSR document for an input: the node template with the
    fields of the input in the places of its actions. *)
Definition nodeCSRDoc (input : cert.CertInput.t) : string :=
  ("{" +:+ cert.nl +:+ "    " +:+ cert.q "CN" +:+ ": " +:+ cert.dq)
  +:+ cert.CertInput.Name input +:+ "."
  +:+ cert.CertInput.Prefix input +:+
  (".io" +:+ cert.dq +:+ "," +:+ cert.nl +:+ cert.text [
    "    " +:+ cert.q "key" +:+ ": {";
    "      " +:+ cert.kv "algo" "rsa" +:+ ",";
    "      " +:+ cert.q "size" +:+ ": 2048";
    "    },";
    "    " +:+ cert.q "names" +:+ ": [{";
    "      " +:+ cert.kv "C" "BE" +:+ ",";
    "      " +:+ cert.kv "L" "Antwerp" +:+ ",";
    "      " +:+ cert.kv "O" "Nokia" +:+ ",";
    "      " +:+ cert.kv "OU" "Container lab";
    "    }],";
    "    " +:+ cert.q "hosts" +:+ ": [" ] +:+ "      " +:+ cert.dq)
  +:+ cert.CertInput.Name input +:+
  (cert.dq +:+ "," +:+ cert.nl +:+ "      " +:+ cert.dq)
  +:+ cert.CertInput.LongName input +:+
  (cert.dq +:+ "," +:+ cert.nl +:+ "      " +:+ cert.dq)
  +:+ cert.CertInput.Fqdn input +:+
  (cert.dq +:+ cert.nl +:+ cert.text [ "    ]"; "}" ]).

(** * Properties *)

(** ** Strings *)

Module StrFacts.

Lemma app_nil_l (s : string) : "" +:+ s = s.
Proof. reflexivity. Qed.

Lemma app_cons (c : ascii) (s t : string) :
  String c s +:+ t = String c (s +:+ t).
Proof. reflexivity. Qed.

Lemma app_nil_r (s : string) : s +:+ "" = s.
Proof. induction s as [|c s IH]; [done|]. by rewrite app_cons, IH. Qed.

Lemma app_assoc (a b c : string) : (a +:+ b) +:+ c = a +:+ (b +:+ c).
Proof. induction a as [|x a IH]; [done|]. by rewrite !app_cons, IH. Qed.

Lemma app_length (a b : string) :
  String.length (a +:+ b) = String.length a + String.length b.
Proof. induction a as [|x a IH]; [done|]. rewrite app_cons. simpl. by rewrite IH. Qed.

End StrFacts.

(** ** Path elements *)

Section PathFacts.
Import filepath.

(** The model against the behaviour Go documents for [Clean]. *)
Example Clean_table :
  Forall (λ pc : string * string, Clean pc.1 = pc.2)
    [ ("abc", "abc"); ("abc/def", "abc/def"); (".", "."); ("..", "..");
      ("../..", "../.."); ("../../abc", "../../abc"); ("/abc", "/abc");
      ("/", "/"); ("", "."); ("abc/", "abc"); ("abc/def/", "abc/def");
      ("./", "."); ("../", ".."); ("../../", "../.."); ("/abc/", "/abc");
      ("abc//def//ghi", "abc/def/ghi"); ("//abc", "/abc");
      ("///abc", "/abc"); ("//abc//", "/abc"); ("abc//", "abc");
      ("abc/./def", "abc/def"); ("/./abc/def", "/abc/def");
      ("abc/.", "abc"); ("abc/def/ghi/../jkl", "abc/def/jkl");
      ("abc/def/../ghi/../jkl", "abc/jkl"); ("abc/def/..", "abc");
      ("abc/def/../..", "."); ("/abc/def/../..", "/");
      ("abc/def/../../..", ".."); ("/abc/def/../../..", "/");
      ("abc/def/../../../ghi/jkl/../../../mno", "../../mno");
      ("/../abc", "/abc"); ("abc/./../def", "def");
      ("abc//./../def", "def"); ("abc/../../././../def", "../../def") ].
Proof. repeat constructor. Qed.

Example Join_table :
  Forall (λ abj : string * string * string, Join abj.1.1 abj.1.2 = abj.2)
    [ ("a", "b", "a/b"); ("a", "", "a"); ("", "b", "b"); ("/", "a", "/a");
      ("/", "", "/"); ("a/", "b", "a/b"); ("a/", "", "a"); ("", "", "");
      ("lab/ca", "n1", "lab/ca/n1"); ("lab/ca", ".", "lab/ca");
      ("lab/ca", "..", "lab"); ("lab/ca", ".pem", "lab/ca/.pem") ].
Proof. repeat constructor. Qed.

Lemma elements_no_slash (s : string) :
  Str.has_slash s = false → elements s = [s].
Proof.
  induction s as [|c s IH]; simpl; [done|].
  destruct (Ascii.eqb c "/"); [done|]. intros Hs. by rewrite IH.
Qed.

Lemma elements_snoc (p : string) :
  ∃ es e, elements p = es ++ [e] ∧
    ∀ sfx, Str.has_slash sfx = false →
      elements (p +:+ sfx) = es ++ [e +:+ sfx].
Proof.
  induction p as [|c p (es & e & Hp & Hsfx)].
  - exists [], "". split; [done|]. intros sfx Hs.
    by rewrite StrFacts.app_nil_l, elements_no_slash.
  - destruct (Ascii.eqb c "/") eqn:Hc.
    + exists ("" :: es), e. split.
      * simpl. by rewrite Hc, Hp.
      * intros sfx Hs. rewrite StrFacts.app_cons. simpl. by rewrite Hc, Hsfx.
    + destruct es as [|x es].
      * exists [], (String c e). split.
        -- simpl. by rewrite Hc, Hp.
        -- intros sfx Hs. rewrite StrFacts.app_cons. simpl.
           by rewrite Hc, Hsfx.
      * exists (String c x :: es), e. split.
        -- simpl. by rewrite Hc, Hp.
        -- intros sfx Hs. rewrite StrFacts.app_cons. simpl.
           by rewrite Hc, Hsfx.
Qed.

Lemma elements_app_sep (a b : string) :
  elements (a +:+ "/" +:+ b) = elements a ++ elements b.
Proof.
  induction a as [|c a IH].
  - done.
  - rewrite StrFacts.app_cons. simpl. rewrite IH.
    destruct (Ascii.eqb c "/"); [done|].
    destruct (elements_snoc a) as (es & e & -> & _).
    by destruct es.
Qed.

Lemma ordinary_spec (e : string) :
  ordinary e = true ↔ e ≠ "" ∧ e ≠ "." ∧ e ≠ "..".
Proof.
  unfold ordinary. rewrite !andb_true_iff, !negb_true_iff.
  rewrite !String.eqb_neq. tauto.
Qed.

Lemma ordinary_app (e sfx : string) :
  ordinary e = true → ordinary (e +:+ sfx) = true.
Proof.
  intros (H1 & H2 & H3)%ordinary_spec. apply ordinary_spec.
  destruct e as [|c1 [|c2 [|c3 e]]]; [done|..];
    rewrite ?StrFacts.app_cons, ?StrFacts.app_nil_l;
    repeat split; intros Heq; simplify_eq; done.
Qed.

Lemma join_snoc (sep e : string) (l : list string) :
  Str.join sep (l ++ [e]) =
    match l with
    | [] => e
    | _ => Str.join sep l +:+ sep +:+ e
    end.
Proof.
  induction l as [|x l IH]; [done|].
  destruct l as [|y l]; [done|].
  change (Str.join sep ((x :: y :: l) ++ [e]))
    with (x +:+ sep +:+ Str.join sep ((y :: l) ++ [e])).
  rewrite IH.
  change (Str.join sep (x :: y :: l))
    with (x +:+ sep +:+ Str.join sep (y :: l)).
  by rewrite !StrFacts.app_assoc.
Qed.

Lemma clean_prefix_shape (r : bool) (out : list string) :
  clean_prefix r out = "" ∨ ∃ x, clean_prefix r out = x +:+ "/".
Proof.
  destruct out as [|e out]; simpl.
  - destruct r; [right; by exists ""|by left].
  - right. exists ((if r then "/" else "") +:+ Str.join "/" (rev out ++ [e])).
    by rewrite StrFacts.app_assoc.
Qed.

Lemma clean_render_push (r : bool) (out : list string) (e : string) :
  clean_render r (e :: out) = clean_prefix r out +:+ e.
Proof.
  unfold clean_render, clean_prefix. simpl rev. rewrite join_snoc.
  destruct out as [|x out]; simpl rev.
  - by destruct r.
  - destruct (rev out ++ [x]) eqn:Hl; [by destruct (rev out)|].
    by rewrite !StrFacts.app_assoc.
Qed.

Lemma clean_step_ordinary (r : bool) (out : list string) (e : string) :
  ordinary e = true → clean_step r out e = e :: out.
Proof.
  unfold ordinary, clean_step. intros He.
  destruct (String.eqb e ""); [done|].
  destruct (String.eqb e "."); [done|].
  by destruct (String.eqb e "..").
Qed.

Lemma Clean_last_ordinary (p e : string) (es : list string) :
  p ≠ "" → elements p = es ++ [e] → ordinary e = true →
  Clean p =
    clean_prefix (rooted p) (fold_left (clean_step (rooted p)) es []) +:+ e.
Proof.
  intros Hp Hes He. unfold Clean.
  destruct (String.eqb_spec p ""); [done|].
  rewrite Hes, fold_left_app. simpl.
  by rewrite clean_step_ordinary, clean_render_push.
Qed.

Lemma rooted_app (p s : string) : p ≠ "" → rooted (p +:+ s) = rooted p.
Proof. by destruct p. Qed.

Lemma has_slash_app (a b : string) :
  Str.has_slash a = false → Str.has_slash b = false →
  Str.has_slash (a +:+ b) = false.
Proof.
  intros Ha Hb. induction a as [|c a IH]; [done|].
  rewrite StrFacts.app_cons. simpl in *.
  destruct (Ascii.eqb c "/"); [done|]. by apply IH.
Qed.

(** A path that ends in an ordinary element keeps its cleaned spelling
    when that element is lengthened: the spelling is a prefix, empty
    or ending with a separator, and the element. *)
Lemma Clean_app_suffix (p e : string) (es : list string) :
  p ≠ "" → elements p = es ++ [e] → ordinary e = true →
  ∃ pre, (pre = "" ∨ ∃ x, pre = x +:+ "/") ∧
    ∀ sfx, Str.has_slash sfx = false →
      Clean (p +:+ sfx) = pre +:+ e +:+ sfx.
Proof.
  intros Hp Hes He.
  exists (clean_prefix (rooted p) (fold_left (clean_step (rooted p)) es [])).
  split; [apply clean_prefix_shape|]. intros sfx Hs.
  destruct (elements_snoc p) as (es' & e' & Hes' & Hsfx).
  rewrite Hes in Hes'. apply app_inj_tail in Hes' as [<- <-].
  rewrite (Clean_last_ordinary (p +:+ sfx) (e +:+ sfx) es).
  - by rewrite rooted_app.
  - destruct p; [done|]. by rewrite StrFacts.app_cons.
  - by apply Hsfx.
  - by apply ordinary_app.
Qed.

(** Joining a plain name to a directory: the result is a prefix that
    is empty or ends with a separator, followed by the name; and a
    suffix may be put on the name before or after joining. *)
Lemma Join_plain_shape (dir n : string) :
  plain n = true →
  ∃ pre, (pre = "" ∨ ∃ x, pre = x +:+ "/") ∧
    ∀ sfx, Str.has_slash sfx = false →
      Join dir (n +:+ sfx) = pre +:+ n +:+ sfx.
Proof.
  unfold plain. intros [Hn Ho]%andb_true_iff.
  apply negb_true_iff in Hn.
  assert (n ≠ "") as Hn0 by (apply ordinary_spec in Ho; tauto).
  assert (∀ sfx, n +:+ sfx ≠ "") as Hne.
  { intros sfx. destruct n; [done|]. by rewrite StrFacts.app_cons. }
  unfold Join. destruct (String.eqb_spec dir "") as [->|Hd].
  - destruct (Clean_app_suffix n n []) as (pre & Hpre & Hsfx);
      [done|by apply elements_no_slash|done|].
    exists pre. split; [done|]. intros sfx Hs.
    destruct (String.eqb_spec (n +:+ sfx) ""); [by apply Hne in e|].
    by apply Hsfx.
  - assert (dir +:+ "/" +:+ n ≠ "") as Hp.
    { destruct dir; [done|]. by rewrite StrFacts.app_cons. }
    assert (elements (dir +:+ "/" +:+ n) = elements dir ++ [n]) as Hes.
    { by rewrite elements_app_sep, (elements_no_slash n). }
    destruct (Clean_app_suffix _ _ _ Hp Hes Ho) as (pre & Hpre & Hsfx).
    exists pre. split; [done|]. intros sfx Hs.
    rewrite <- (Hsfx sfx Hs). by rewrite !StrFacts.app_assoc.
Qed.

Lemma Join_plain (dir n : string) :
  plain n = true →
  ∃ pre, (pre = "" ∨ ∃ x, pre = x +:+ "/") ∧ Join dir n = pre +:+ n.
Proof.
  intros (pre & Hpre & Hsfx)%(Join_plain_shape dir).
  exists pre. split; [done|].
  specialize (Hsfx "" eq_refl). by rewrite !StrFacts.app_nil_r in Hsfx.
Qed.

(** The writer's spelling [Join(dir, n) + sfx] and the reader's
    spelling [Join(dir, n + sfx)] of a file agree for a plain name. *)
Lemma Join_suffix (dir n sfx : string) :
  plain n = true → Str.has_slash sfx = false →
  filepath.Join dir n +:+ sfx = filepath.Join dir (n +:+ sfx).
Proof.
  intros Hn Hs.
  destruct (Join_plain_shape dir n Hn) as (pre & _ & Hsfx).
  rewrite (Hsfx sfx Hs).
  specialize (Hsfx "" eq_refl). rewrite !StrFacts.app_nil_r in Hsfx.
  by rewrite Hsfx, StrFacts.app_assoc.
Qed.

End PathFacts.

(** ** The certificate store *)

Section StoreFacts.

Lemma to_bytes_to_string (b : bytes) : to_bytes (to_string b) = b.
Proof. apply String.list_byte_of_string_of_list_byte. Qed.

Lemma suffix_neq (pre s1 s2 : string) : s1 ≠ s2 → pre +:+ s1 ≠ pre +:+ s2.
Proof. intros Hne Heq. by apply (inj (String.app pre)) in Heq. Qed.

Lemma CreateDirectory_logs (p : string) (perm : N) (w : World) :
  logs (utils.CreateDirectory p perm w) = logs w.
Proof. unfold utils.CreateDirectory. by destruct (fs w !! p). Qed.

Lemma CreateDirectory_present (p : string) (perm : N) (w : World) :
  is_Some (fs w !! p) → utils.CreateDirectory p perm w = w.
Proof. intros [e He]. unfold utils.CreateDirectory. by rewrite He. Qed.

Lemma CreateDirectory_absent (p : string) (perm : N) (w : World) :
  fs w !! p = None →
  fs (utils.CreateDirectory p perm w) = <[p := Dir perm]> (fs w).
Proof. intros He. unfold utils.CreateDirectory. by rewrite He. Qed.

Lemma CreateDirectory_lookup (p q : string) (perm : N) (w : World) :
  fs (utils.CreateDirectory p perm w) !! q =
    match fs w !! q with
    | Some e => Some e
    | None => if decide (p = q) then Some (Dir perm) else None
    end.
Proof.
  unfold utils.CreateDirectory.
  destruct (fs w !! p) eqn:Hp; simpl.
  - destruct (fs w !! q) eqn:Hq; [done|].
    case_decide; [congruence|done].
  - rewrite lookup_insert. case_decide.
    + subst q. by rewrite Hp.
    + by destruct (fs w !! q).
Qed.

(** Creating a directory creates or changes no file. *)
Lemma CreateDirectory_files (p q : string) (perm : N) (w : World) :
  file_at (utils.CreateDirectory p perm w) q = file_at w q.
Proof.
  unfold file_at. rewrite CreateDirectory_lookup.
  destruct (fs w !! q); [done|]. by case_decide.
Qed.

Lemma CreateDirectory_exists (p : string) (perm : N) (w : World) :
  is_Some (fs (utils.CreateDirectory p perm w) !! p).
Proof.
  rewrite CreateDirectory_lookup. destruct (fs w !! p); [by eexists|].
  rewrite decide_True; [by eexists|done].
Qed.

Lemma emit_fs (l : level) (msg : string) (w : World) :
  fs (log.emit l msg w) = fs w.
Proof. done. Qed.

Lemma writeCertFiles_fs (certs : cert.Certificates) (pre : string)
    (w : World) :
  fs (cert.writeCertFiles certs pre w) =
    <[pre +:+ ".csr" := File (cert.Csr certs)]>
      (<[pre +:+ "-key.pem" := File (cert.Key certs)]>
         (<[pre +:+ ".pem" := File (cert.Cert certs)]> (fs w))).
Proof.
  unfold cert.writeCertFiles, utils.CreateFile. simpl.
  by rewrite !to_bytes_to_string.
Qed.

Lemma writeCertFiles_logs (certs : cert.Certificates) (pre : string)
    (w : World) :
  logs (cert.writeCertFiles certs pre w) = logs w.
Proof. done. Qed.

Lemma writeCertFiles_lookup (certs : cert.Certificates) (pre p : string)
    (w : World) :
  fs (cert.writeCertFiles certs pre w) !! p =
    if decide (p = pre +:+ ".pem") then Some (File (cert.Cert certs))
    else if decide (p = pre +:+ "-key.pem") then Some (File (cert.Key certs))
    else if decide (p = pre +:+ ".csr") then Some (File (cert.Csr certs))
    else fs w !! p.
Proof.
  rewrite writeCertFiles_fs.
  assert (pre +:+ ".pem" ≠ pre +:+ "-key.pem") by by apply suffix_neq.
  assert (pre +:+ ".pem" ≠ pre +:+ ".csr") by by apply suffix_neq.
  assert (pre +:+ "-key.pem" ≠ pre +:+ ".csr") by by apply suffix_neq.
  repeat case_decide; simplify_map_eq; done.
Qed.

Lemma writeCertFiles_exists (certs : cert.Certificates) (pre p : string)
    (w : World) :
  is_Some (fs w !! p) → is_Some (fs (cert.writeCertFiles certs pre w) !! p).
Proof.
  intros Hp. rewrite writeCertFiles_lookup. by repeat case_decide.
Qed.

End StoreFacts.

(** ** Issuance, step by step *)

Section IssuanceFacts.
Context `{Externals}.

Variable ca caKey : string.
Variable tpl : template.Template.
Variable input : cert.CertInput.t.
Variable targetPath : string.
Variable w : World.

Let w1 : World := utils.CreateDirectory targetPath cert.perm0755 w.

Lemma GenerateCert_fails (e : error) :
  issuance_fails tpl input (fs w1) ca caKey e →
  cert.GenerateCert ca caKey tpl input targetPath w = ((None, Some e), w1).
Proof.
  unfold cert.GenerateCert. fold w1.
  destruct 1 as [e He|b e He Hu|b r e He Hu Hg|b r c k e He Hu Hg Hn
                |b r c k s e He Hu Hg Hn Hs].
  - by rewrite He.
  - by rewrite He, Hu.
  - by rewrite He, Hu, Hg.
  - by rewrite He, Hu, Hg, Hn.
  - unfold signRequest in Hs. by rewrite He, Hu, Hg, Hn, Hs.
Qed.

Lemma GenerateCert_succeeds (req : csr.CertificateRequest) (s : Signer)
    (certs : cert.Certificates) :
  issuance_succeeds tpl input (fs w1) ca caKey req s certs →
  cert.GenerateCert ca caKey tpl input targetPath w =
    ((Some certs, None),
     issued_world targetPath (cert.CertInput.Name input) req certs w).
Proof.
  unfold cert.GenerateCert, issued_world. fold w1.
  destruct 1 as [b r c k s' crt He Hu Hg Hn Hs].
  rewrite He, Hu, Hg, Hn. unfold signRequest in Hs. rewrite Hs. simpl.
  by destruct (csr.Hosts r).
Qed.

Lemma issuance_total :
  (∃ e, issuance_fails tpl input (fs w1) ca caKey e) ∨
  (∃ req s certs, issuance_succeeds tpl input (fs w1) ca caKey req s certs).
Proof.
  destruct (template.Execute tpl (cert.CertInput.field input))
    as [b|e] eqn:He; [|left; exists e; by constructor].
  destruct (json_Unmarshal b cert.newRequest)
    as [r|e] eqn:Hu; [|left; exists e; by econstructor 2].
  destruct (gen_ProcessRequest r)
    as [[c k]|e] eqn:Hg; [|left; exists e; by econstructor 3].
  destruct (universal_NewSigner (fs w1) ca caKey)
    as [s|e] eqn:Hn; [|left; exists e; by econstructor 4].
  destruct (Sign s (signRequest c))
    as [crt|e] eqn:Hs; [|left; exists e; by econstructor 5].
  right. eexists _, _, _. by econstructor.
Qed.

(** Every outcome of [GenerateCert] is one of the two above. *)
Lemma GenerateCert_inv (o : cert.outcome) (w' : World) :
  cert.GenerateCert ca caKey tpl input targetPath w = (o, w') →
  (∃ e, issuance_fails tpl input (fs w1) ca caKey e ∧
        o = (None, Some e) ∧ w' = w1) ∨
  (∃ req s certs,
      issuance_succeeds tpl input (fs w1) ca caKey req s certs ∧
      o = (Some certs, None) ∧
      w' = issued_world targetPath (cert.CertInput.Name input) req certs w).
Proof.
  intros Hg.
  destruct issuance_total as [[e Hf]|(req & s & certs & Hs)].
  - left. exists e. rewrite (GenerateCert_fails e Hf) in Hg.
    by simplify_eq.
  - right. exists req, s, certs.
    rewrite (GenerateCert_succeeds req s certs Hs) in Hg. by simplify_eq.
Qed.

End IssuanceFacts.

(** ** Root CA bootstrap, step by step *)

Section RootCAFacts.
Context `{Externals}.

Lemma rootCACSRTempl_parses :
  ∃ h t,
    template.Parse "ca-csr" cert.rootCACSRTempl =
      Ok {| template.Name := "ca-csr";
            template.Tree :=
              [template.Text h; template.Field "Prefix"; template.Text t] |}
    ∧ ∀ prefix, rootCSRDoc prefix = h +:+ prefix +:+ t.
Proof.
  eexists _, _. split; [vm_compute; reflexivity|].
  intros prefix. reflexivity.
Qed.

Lemma exists_at_true (p : string) (w : World) :
  cert.exists_at p w = true ↔ is_Some (fs w !! p).
Proof.
  unfold cert.exists_at, os.Stat.
  destruct (fs w !! p); split; (done || by intros [? ?]).
Qed.

Lemma root_pair_exists_true (labCARoot : string) (w : World) :
  cert.exists_at (filepath.Join labCARoot "root-ca.pem") w
  && cert.exists_at (filepath.Join labCARoot "root-ca-key.pem") w = true
  ↔ root_pair_exists labCARoot w.
Proof.
  unfold root_pair_exists. by rewrite andb_true_iff, !exists_at_true.
Qed.

Variable configName labCARoot : string.
Variable ns : gmap string nodes.Node.
Variable w : World.

Lemma CreateRootCA_not_needed :
  cert.hasCAKind ns = false →
  cert.CreateRootCA configName labCARoot ns w = (None, w).
Proof. intros Hn. unfold cert.CreateRootCA. by rewrite Hn. Qed.

Lemma CreateRootCA_skip :
  root_pair_exists labCARoot w →
  cert.CreateRootCA configName labCARoot ns w = (None, w).
Proof.
  intros Hp%root_pair_exists_true. unfold cert.CreateRootCA.
  destruct (cert.hasCAKind ns); [|done]. by rewrite Hp.
Qed.

Lemma CreateRootCA_bootstrap :
  cert.hasCAKind ns = true → ¬ root_pair_exists labCARoot w →
  cert.CreateRootCA configName labCARoot ns w =
    match json_Unmarshal (to_bytes (rootCSRDoc configName)) cert.newRequest with
    | Err e =>
        (Some (Errorf "failed to generate rootCa: " e),
         rootCAStarted labCARoot w)
    | Ok req =>
        match initca_New req with
        | Err e =>
            (Some (Errorf "failed to generate rootCa: " e),
             rootCAStarted labCARoot w)
        | Ok (crt, csrPEM, key) =>
            let certs :=
              {| cert.Key := key; cert.Csr := csrPEM; cert.Cert := crt |} in
            (None,
             log.emit Debug ("root Key: " +:+ to_string key)
               (log.emit Debug ("root Cert: " +:+ to_string crt)
                  (log.emit Debug ("root CSR: " +:+ to_string csrPEM)
                     (cert.writeCertFiles certs
                        (filepath.Join labCARoot "root-ca")
                        (rootCAStarted labCARoot w)))))
        end
    end.
Proof.
  intros Hn Hp. rewrite <- root_pair_exists_true in Hp.
  apply not_true_is_false in Hp.
  destruct rootCACSRTempl_parses as (h & t & Hparse & Hdoc).
  unfold cert.CreateRootCA. rewrite Hn, Hp, Hparse. simpl negb. cbv iota.
  unfold cert.GenerateRootCa, template.Execute. simpl.
  rewrite StrFacts.app_nil_l, StrFacts.app_assoc, <- Hdoc.
  fold (rootCAStarted labCARoot w).
  destruct (json_Unmarshal _ _) as [req|e]; [|done].
  destruct (initca_New req) as [[[crt csrPEM] key]|e]; done.
Qed.

End RootCAFacts.

(** * The claims *)

(** ** Root CA bootstrap *)

Section RootCAClaims.
Context `{Externals}.

Lemma rootCAStarted_logs (labCARoot : string) (w : World) :
  logs (rootCAStarted labCARoot w) = logs w ++ [(Info, "Creating root CA")].
Proof. unfold rootCAStarted. by rewrite CreateDirectory_logs. Qed.

Lemma root_pair_exists_dec (labCARoot : string) (w : World) :
  root_pair_exists labCARoot w ∨ ¬ root_pair_exists labCARoot w.
Proof.
  rewrite <- root_pair_exists_true.
  destruct (_ && _); [by left|by right].
Qed.

(** A bootstrap that is attempted always leaves a trace in the log. *)
Lemma CreateRootCA_bootstrap_logs (configName labCARoot : string)
    (ns : gmap string nodes.Node) (w : World) :
  cert.hasCAKind ns = true → ¬ root_pair_exists labCARoot w →
  length (logs w) <
    length (logs (cert.CreateRootCA configName labCARoot ns w).2).
Proof.
  intros Hn Hp. rewrite (CreateRootCA_bootstrap _ _ _ _ Hn Hp).
  destruct (json_Unmarshal _ _) as [req|e]; simpl;
    [destruct (initca_New req) as [[[crt csrPEM] key]|e]; simpl|];
    rewrite ?length_app, rootCAStarted_logs, length_app; simpl; lia.
Qed.

(** C1. When the topology needs a CA: if both [root-ca.pem] and
    [root-ca-key.pem] exist under [labCARoot], [CreateRootCA] returns nil
    and leaves the world as it is, without a look at what the files
    hold. If one of them is missing, it renders the root template
    (which asks for a 2048-bit RSA key), unmarshals the document into a
    request that starts from the library's default key request, has a
    CA self-signed for it, and stores certificate, key and CSR under
    [labCARoot/root-ca*]; an error of unmarshalling or signing is
    returned with context. The world stays as it is exactly when both
    files exist. *)
Theorem CreateRootCA_skips_iff_root_pair_exists
    (configName labCARoot : string) (ns : gmap string nodes.Node)
    (w : World) :
  cert.hasCAKind ns = true →
  (root_pair_exists labCARoot w →
     cert.CreateRootCA configName labCARoot ns w = (None, w))
  ∧ (¬ root_pair_exists labCARoot w →
     match json_Unmarshal (to_bytes (rootCSRDoc configName))
             cert.newRequest with
     | Err e =>
         cert.CreateRootCA configName labCARoot ns w =
           (Some (Errorf "failed to generate rootCa: " e),
            rootCAStarted labCARoot w)
     | Ok req =>
         match initca_New req with
         | Err e =>
             cert.CreateRootCA configName labCARoot ns w =
               (Some (Errorf "failed to generate rootCa: " e),
                rootCAStarted labCARoot w)
         | Ok (crt, csrPEM, key) =>
             ∃ w',
               cert.CreateRootCA configName labCARoot ns w = (None, w') ∧
               fs w' =
                 <[filepath.Join labCARoot "root-ca.csr" := File csrPEM]>
                   (<[filepath.Join labCARoot "root-ca-key.pem" := File key]>
                      (<[filepath.Join labCARoot "root-ca.pem" := File crt]>
                         (fs (rootCAStarted labCARoot w))))
         end
     end)
  ∧ ((cert.CreateRootCA configName labCARoot ns w).2 = w
     ↔ root_pair_exists labCARoot w).
Proof.
  intros Hn. split; [apply CreateRootCA_skip|]. split.
  - intros Hp. rewrite (CreateRootCA_bootstrap _ _ _ _ Hn Hp).
    destruct (json_Unmarshal _ _) as [req|e]; [|done].
    destruct (initca_New req) as [[[crt csrPEM] key]|e]; [|done].
    eexists. split; [done|].
    rewrite !emit_fs, writeCertFiles_fs. simpl.
    by rewrite !Join_suffix.
  - split.
    + intros Hw. destruct (root_pair_exists_dec labCARoot w) as [|Hp]; [done|].
      pose proof (CreateRootCA_bootstrap_logs configName _ _ _ Hn Hp) as Hl.
      rewrite Hw in Hl. lia.
    + intros Hp. by rewrite CreateRootCA_skip.
Qed.

(** When the topology needs a CA, a call that returns nil leaves both
    root files in place. *)
Lemma CreateRootCA_leaves_root_pair (configName labCARoot : string)
    (ns : gmap string nodes.Node) (w w1 : World) :
  cert.hasCAKind ns = true →
  cert.CreateRootCA configName labCARoot ns w = (None, w1) →
  root_pair_exists labCARoot w1.
Proof.
  intros Hn Hc.
  destruct (root_pair_exists_dec labCARoot w) as [Hp|Hp].
  - rewrite (CreateRootCA_skip _ _ _ _ Hp) in Hc. by simplify_eq.
  - rewrite (CreateRootCA_bootstrap _ _ _ _ Hn Hp) in Hc.
    destruct (json_Unmarshal _ _) as [req|e]; [|done].
    destruct (initca_New req) as [[[crt csrPEM] key]|e]; [|done].
    cbv zeta in Hc. injection Hc as <-. unfold root_pair_exists.
    rewrite !emit_fs.
    pose proof (Join_suffix labCARoot "root-ca" ".pem" eq_refl eq_refl) as E1.
    pose proof (Join_suffix labCARoot "root-ca" "-key.pem" eq_refl eq_refl)
      as E2.
    change ("root-ca" +:+ ".pem") with "root-ca.pem" in E1.
    change ("root-ca" +:+ "-key.pem") with "root-ca-key.pem" in E2.
    rewrite <- E1, <- E2.
    rewrite !writeCertFiles_lookup.
    rewrite decide_True by done.
    rewrite decide_False by (by apply suffix_neq).
    rewrite decide_True by done. split; by eexists.
Qed.

(** C2. If a call of [CreateRootCA] returns nil and both root files are
    there after it, the same call made again returns nil and leaves
    every file (and the log) as it is. When the topology needs a CA the
    two files are always there after a call that returned nil. *)
Theorem CreateRootCA_idempotent (configName labCARoot : string)
    (ns : gmap string nodes.Node) (w w1 : World) :
  cert.CreateRootCA configName labCARoot ns w = (None, w1) →
  (root_pair_exists labCARoot w1 →
     cert.CreateRootCA configName labCARoot ns w1 = (None, w1))
  ∧ (cert.hasCAKind ns = true → root_pair_exists labCARoot w1).
Proof.
  intros Hc. split.
  - apply CreateRootCA_skip.
  - intros Hn. by eapply CreateRootCA_leaves_root_pair.
Qed.

Lemma hasCAKind_spec (ns : gmap string nodes.Node) :
  cert.hasCAKind ns = true ↔
  ∃ name n, ns !! name = Some n ∧ types.Kind (nodes.Config n) ∈ CAKinds.
Proof.
  unfold cert.hasCAKind, CAKinds. rewrite existsb_exists. split.
  - intros ([name n] & Hin & Hk). exists name, n.
    apply list_elem_of_In, elem_of_map_to_list in Hin.
    apply String.eqb_eq in Hk. split; [done|].
    by apply list_elem_of_singleton.
  - intros (name & n & Hl & Hk%list_elem_of_singleton).
    exists (name, n). split.
    + by apply list_elem_of_In, elem_of_map_to_list.
    + by apply String.eqb_eq.
Qed.

(** C3. [CreateRootCA] goes on to the bootstrap exactly when some node
    has a kind of the allow-list. The gate is true for such node maps
    and no others. With no such node the call returns nil and leaves
    the world as it is (no directory, no file, no log line). With such
    a node the call is the bootstrap: nothing is done when both root
    files are there; otherwise the root document is rendered and
    unmarshalled, a CA is self-signed for it, the certificate, the key
    and the CSR are stored under [labCARoot/root-ca*] after the
    directory was made sure of, and the four lines are logged; an error
    of unmarshalling or signing is returned wrapped, with nothing but
    the directory and the announcement done. *)
Theorem CreateRootCA_necessity_gating (configName labCARoot : string)
    (ns : gmap string nodes.Node) (w : World) :
  (cert.hasCAKind ns = true ↔
     ∃ name n, ns !! name = Some n ∧
               types.Kind (nodes.Config n) ∈ CAKinds)
  ∧ ((¬ ∃ name n, ns !! name = Some n ∧
                  types.Kind (nodes.Config n) ∈ CAKinds) →
     cert.CreateRootCA configName labCARoot ns w = (None, w))
  ∧ ((∃ name n, ns !! name = Some n ∧
                types.Kind (nodes.Config n) ∈ CAKinds) →
     (root_pair_exists labCARoot w →
        cert.CreateRootCA configName labCARoot ns w = (None, w))
     ∧ (¬ root_pair_exists labCARoot w →
        match json_Unmarshal (to_bytes (rootCSRDoc configName))
                cert.newRequest with
        | Err e =>
            cert.CreateRootCA configName labCARoot ns w =
              (Some (Errorf "failed to generate rootCa: " e),
               rootCAStarted labCARoot w)
        | Ok req =>
            match initca_New req with
            | Err e =>
                cert.CreateRootCA configName labCARoot ns w =
                  (Some (Errorf "failed to generate rootCa: " e),
                   rootCAStarted labCARoot w)
            | Ok (crt, csrPEM, key) =>
                ∃ w',
                  cert.CreateRootCA configName labCARoot ns w = (None, w') ∧
                  fs w' =
                    <[filepath.Join labCARoot "root-ca.csr" := File csrPEM]>
                      (<[filepath.Join labCARoot "root-ca-key.pem"
                           := File key]>
                         (<[filepath.Join labCARoot "root-ca.pem"
                              := File crt]>
                            (fs (rootCAStarted labCARoot w)))) ∧
                  logs w' =
                    logs w ++ [ (Info, "Creating root CA");
                                (Debug, "root CSR: " +:+ to_string csrPEM);
                                (Debug, "root Cert: " +:+ to_string crt);
                                (Debug, "root Key: " +:+ to_string key) ]
            end
        end)).
Proof.
  split; [apply hasCAKind_spec|]. split.
  - intros Hno. apply CreateRootCA_not_needed.
    apply not_true_is_false. by rewrite hasCAKind_spec.
  - intros Hn%hasCAKind_spec. split; [apply CreateRootCA_skip|].
    intros Hp. rewrite (CreateRootCA_bootstrap _ _ _ _ Hn Hp).
    destruct (json_Unmarshal _ _) as [req|e]; [|done].
    destruct (initca_New req) as [[[crt csrPEM] key]|e]; [|done].
    eexists. split; [done|]. split.
    + rewrite !emit_fs, writeCertFiles_fs. simpl.
      by rewrite !Join_suffix.
    + cbn [logs log.emit].
      rewrite writeCertFiles_logs, rootCAStarted_logs.
      by rewrite <- !app_assoc.
Qed.

End RootCAClaims.

(** ** Leaf certificate issuance *)

Section ChainValidity.
Context `{Externals}.

(** What the signing library is trusted for. [Verify root leaf]:
    validating the certificate [leaf] against the certificate [root];
    [root_pair crt key]: [key] is the private key of the CA
    certificate [crt]. A signer built from the files of such a pair
    signs certificates that validate against the pair's certificate. *)
Variable Verify : bytes → bytes → bool.
Variable root_pair : bytes → bytes → Prop.
Hypothesis signer_sound :
  ∀ files ca caKey s rootCert rootKey req crt,
    root_pair rootCert rootKey →
    files !! ca = Some (File rootCert) →
    files !! caKey = Some (File rootKey) →
    universal_NewSigner files ca caKey = Ok s →
    Sign s req = Ok crt →
    Verify rootCert crt = true.

(** C4. A bundle that [GenerateCert] returns, when [ca] and [caKey] name
    the files of the lab's root CA certificate and key, holds a
    certificate that validates against the root CA's certificate. *)
Theorem GenerateCert_chains_to_root (ca caKey : string)
    (tpl : template.Template) (input : cert.CertInput.t)
    (targetPath : string) (w w' : World) (certs : cert.Certificates)
    (rootCert rootKey : bytes) :
  root_pair rootCert rootKey →
  fs w !! ca = Some (File rootCert) →
  fs w !! caKey = Some (File rootKey) →
  cert.GenerateCert ca caKey tpl input targetPath w
    = ((Some certs, None), w') →
  Verify rootCert (cert.Cert certs) = true.
Proof.
  intros Hpair Hca Hkey Hg.
  apply GenerateCert_inv in Hg
    as [(e & _ & ? & _)|(req & s & certs' & Hs & Ho & _)]; [done|].
  injection Ho as <-.
  destruct Hs as [b r c k s crt _ _ _ Hn Hs]. simpl.
  eapply signer_sound; [done| | |done..];
    by rewrite CreateDirectory_lookup, ?Hca, ?Hkey.
Qed.

End ChainValidity.

Section IssuanceClaims.
Context `{Externals}.

(** C5. [writeCertFiles] writes three files and no other: the
    certificate at [prefix.pem], the key at [prefix-key.pem], the CSR
    at [prefix.csr], three different paths that depend on the prefix
    alone. A bundle that [GenerateCert] returns has been stored in this
    way under [Join(targetPath, input.Name)], after the directory
    [targetPath] was created if it was missing: a path that exists is
    left as it is, a path that does not becomes a directory. *)
Theorem writeCertFiles_layout (certs : cert.Certificates)
    (filesPrefix : string) (w : World) :
  (∀ p, fs (cert.writeCertFiles certs filesPrefix w) !! p =
          if decide (p = filesPrefix +:+ ".pem")
          then Some (File (cert.Cert certs))
          else if decide (p = filesPrefix +:+ "-key.pem")
          then Some (File (cert.Key certs))
          else if decide (p = filesPrefix +:+ ".csr")
          then Some (File (cert.Csr certs))
          else fs w !! p)
  ∧ NoDup [filesPrefix +:+ ".pem"; filesPrefix +:+ "-key.pem";
           filesPrefix +:+ ".csr"]
  ∧ (∀ ca caKey tpl input targetPath w0 w1,
       cert.GenerateCert ca caKey tpl input targetPath w0
         = ((Some certs, None), w1) →
       fs w1 =
         fs (cert.writeCertFiles certs
               (filepath.Join targetPath (cert.CertInput.Name input))
               (utils.CreateDirectory targetPath cert.perm0755 w0))
       ∧ is_Some (fs w1 !! targetPath))
  ∧ (∀ dir perm,
       (is_Some (fs w !! dir) → utils.CreateDirectory dir perm w = w)
       ∧ (fs w !! dir = None →
          fs (utils.CreateDirectory dir perm w)
            = <[dir := Dir perm]> (fs w))).
Proof.
  split; [intros p; apply writeCertFiles_lookup|]. split.
  { repeat constructor; rewrite ?list_elem_of_In; simpl;
      intros Hin; repeat destruct Hin as [Hin|Hin]; try done;
      by apply (inj (String.app filesPrefix)) in Hin. }
  split.
  - intros ca caKey tpl input targetPath w0 w1 Hg.
    apply GenerateCert_inv in Hg
      as [(e & _ & ? & _)|(req & s & certs' & _ & Ho & ->)]; [done|].
    injection Ho as <-. unfold issued_world.
    assert (∀ w2 : World,
      fs (match csr.Hosts req with
          | [] => log.emit Warning generator_CSRNoHostMessage w2
          | _ :: _ => w2
          end) = fs w2) as Hw by (intros w2; by destruct (csr.Hosts req)).
    split.
    + by rewrite !writeCertFiles_fs, Hw.
    + apply writeCertFiles_exists. rewrite Hw.
      apply CreateDirectory_exists.
  - intros dir perm. split.
    + apply CreateDirectory_present.
    + apply CreateDirectory_absent.
Qed.


(** C7, as amended. When rendering, unmarshalling, key generation, signer
    construction or signing fails, [GenerateCert] returns a nil bundle
    and the error of the failing step as it is, with no context added;
    the world is then the one it started from with the directory
    [targetPath] made sure of: no file is created or changed, and
    nothing is logged. *)
Theorem GenerateCert_failure_writes_no_file (ca caKey : string)
    (tpl : template.Template) (input : cert.CertInput.t)
    (targetPath : string) (w : World) (e : error) :
  let w1 := utils.CreateDirectory targetPath cert.perm0755 w in
  issuance_fails tpl input (fs w1) ca caKey e →
  cert.GenerateCert ca caKey tpl input targetPath w = ((None, Some e), w1)
  ∧ (∀ p, file_at w1 p = file_at w p)
  ∧ logs w1 = logs w.
Proof.
  intros w1 Hf. split; [by apply GenerateCert_fails|]. split.
  - intros p. apply CreateDirectory_files.
  - apply CreateDirectory_logs.
Qed.

End IssuanceClaims.

(** ** Retrieval *)

Section RetrievalFacts.

Lemma elements_last (pre e : string) :
  (pre = "" ∨ ∃ x, pre = x +:+ "/") → Str.has_slash e = false →
  ∃ es, filepath.elements (pre +:+ e) = es ++ [e].
Proof.
  intros [->|[x ->]] He.
  - exists []. by apply elements_no_slash.
  - exists (filepath.elements x).
    by rewrite StrFacts.app_assoc, elements_app_sep, (elements_no_slash e).
Qed.

(** A file of a node is never spelled like a node's directory. *)
Lemma Join_plain_neq_suffix (dir dir' n sfx : string) :
  plain n = true → Str.has_slash sfx = false → sfx ≠ "" →
  filepath.Join dir n ≠ filepath.Join dir' n +:+ sfx.
Proof.
  intros Hn Hs Hne Heq.
  assert (Str.has_slash n = false) as Hsl.
  { unfold plain in Hn. apply andb_true_iff in Hn as [Hn _].
    by apply negb_true_iff. }
  destruct (Join_plain dir n Hn) as (p1 & Hp1 & E1).
  destruct (Join_plain_shape dir' n Hn) as (p2 & Hp2 & E2).
  rewrite (Join_suffix dir' n sfx Hn Hs), (E2 sfx Hs), E1 in Heq.
  destruct (elements_last p1 n Hp1 Hsl) as [es1 H1].
  destruct (elements_last p2 (n +:+ sfx) Hp2) as [es2 H2];
    [by apply has_slash_app|].
  rewrite Heq, H2 in H1. apply app_inj_tail in H1 as [_ H1].
  rewrite <- (StrFacts.app_nil_r n) in H1 at 2.
  by apply (inj (String.app n)) in H1.
Qed.

(** [RetrieveNodeCertData] reads and never writes. *)
Lemma RetrieveNodeCertData_world (n : types.NodeConfig) (labCADir : string)
    (w : World) :
  (cert.RetrieveNodeCertData n labCADir w).2 = w.
Proof.
  unfold cert.RetrieveNodeCertData.
  destruct (os.Stat _ w) as [stat|e]; [|done].
  destruct (negb (IsDir stat)); [done|].
  destruct (utils.ReadFileContent _ w); [|done].
  by destruct (utils.ReadFileContent _ w).
Qed.

(** What holds of a retrieval miss: when nothing is at the path of the
    node's directory, or the directory is there and one of the two
    files is not, the result is a nil bundle and an error that
    [IsNotExist] recognises. *)
Lemma RetrieveNodeCertData_absent (n : types.NodeConfig) (labCADir : string)
    (w : World) :
  let dir := filepath.Join labCADir (types.ShortName n) in
  let certFile := filepath.Join dir (types.ShortName n +:+ ".pem") in
  let keyFile := filepath.Join dir (types.ShortName n +:+ "-key.pem") in
  fs w !! dir = None
  ∨ ((∃ perm, fs w !! dir = Some (Dir perm)) ∧
     (fs w !! certFile = None ∨
      (is_Some (file_at w certFile) ∧ fs w !! keyFile = None))) →
  ∃ e, cert.RetrieveNodeCertData n labCADir w = ((None, Some e), w)
       ∧ IsNotExist e = true.
Proof.
  intros dir certFile keyFile.
  unfold cert.RetrieveNodeCertData, os.Stat, utils.ReadFileContent, file_at.
  fold dir certFile keyFile.
  intros [->|[[perm ->] [->|[[c Hc] ->]]]]; simpl; [by eexists..|].
  destruct (fs w !! certFile) as [[|c']|]; [done| |done]. by eexists.
Qed.

End RetrievalFacts.

Section RetrievalClaims.
Context `{Externals}.

(** C8. The case the claim does not survive: the path of the node's
    directory holds a regular file. No certificate was ever issued,
    neither the certificate file nor the key file exists, and yet
    [RetrieveNodeCertData] returns a nil bundle with a nil error. *)
Theorem RetrieveNodeCertData_miss_without_error :
  let n := {| types.ShortName := "n1"; types.LongName := "clab-lab-n1";
              types.Fqdn := "n1.lab.io"; types.Kind := "srl" |} in
  let w := {| fs := {[ "lab/ca/n1" := File [] ]}; logs := [] |} in
  fs w !! "lab/ca/n1" = Some (File [])
  ∧ fs w !! "lab/ca/n1/n1.pem" = None
  ∧ fs w !! "lab/ca/n1/n1-key.pem" = None
  ∧ cert.RetrieveNodeCertData n "lab/ca" w = ((None, None), w).
Proof. vm_compute. by repeat split. Qed.

(** C9. If the path [Join(labCADir, ShortName)] exists and is not a
    directory, [RetrieveNodeCertData] returns a nil bundle and a nil
    error, and changes nothing. *)
Theorem RetrieveNodeCertData_not_a_directory (n : types.NodeConfig)
    (labCADir : string) (w : World) (content : bytes) :
  fs w !! filepath.Join labCADir (types.ShortName n)
    = Some (File content) →
  cert.RetrieveNodeCertData n labCADir w = ((None, None), w).
Proof.
  intros Hf. unfold cert.RetrieveNodeCertData, os.Stat. by rewrite Hf.
Qed.

(** C10, as amended. For a node whose short name is a plain name,
    issued a certificate by [GenerateCert] with [input.Name] its short
    name and [targetPath] the path [Join(labCADir, ShortName)], which
    held no regular file before: [RetrieveNodeCertData] then returns a
    bundle with the certificate and the key of the issued bundle and an
    empty CSR, although the CSR file is there. *)
Theorem RetrieveNodeCertData_after_GenerateCert (ca caKey : string)
    (tpl : template.Template) (input : cert.CertInput.t)
    (n : types.NodeConfig) (labCADir : string) (w w' : World)
    (certs : cert.Certificates) :
  let dir := filepath.Join labCADir (types.ShortName n) in
  plain (types.ShortName n) = true →
  cert.CertInput.Name input = types.ShortName n →
  file_at w dir = None →
  cert.GenerateCert ca caKey tpl input dir w = ((Some certs, None), w') →
  cert.RetrieveNodeCertData n labCADir w' =
    ((Some {| cert.Key := cert.Key certs; cert.Csr := [];
              cert.Cert := cert.Cert certs |}, None), w')
  ∧ file_at w' (filepath.Join dir (types.ShortName n +:+ ".csr"))
      = Some (cert.Csr certs).
Proof.
  intros dir Hn Hname Hdir Hg.
  apply GenerateCert_inv in Hg
    as [(e & _ & ? & _)|(req & s & certs' & _ & Ho & ->)]; [done|].
  injection Ho as <-. rewrite Hname.
  set (pre := filepath.Join dir (types.ShortName n)).
  assert (∀ sfx, Str.has_slash sfx = false →
            filepath.Join dir (types.ShortName n +:+ sfx) = pre +:+ sfx)
    as Hsfx by (intros sfx Hs; by rewrite <- Join_suffix).
  assert (∀ sfx, Str.has_slash sfx = false → sfx ≠ "" → dir ≠ pre +:+ sfx)
    as Hneq by (intros sfx Hs Hne; by apply Join_plain_neq_suffix).
  assert (∃ perm,
    fs (issued_world dir (types.ShortName n) req certs w) !! dir
      = Some (Dir perm)) as [perm Hstat].
  { unfold issued_world. fold pre. rewrite writeCertFiles_lookup.
    rewrite !decide_False by (by apply Hneq).
    assert (∀ w2 : World,
      fs (match csr.Hosts req with
          | [] => log.emit Warning generator_CSRNoHostMessage w2
          | _ :: _ => w2
          end) = fs w2) as -> by (intros w2; by destruct (csr.Hosts req)).
    rewrite CreateDirectory_lookup. unfold file_at in Hdir.
    destruct (fs w !! dir) as [[perm|c]|]; [by eexists|done|].
    rewrite decide_True by done. by eexists. }
  assert (fs (issued_world dir (types.ShortName n) req certs w)
            !! (pre +:+ ".pem") = Some (File (cert.Cert certs))) as HC.
  { unfold issued_world. fold pre. rewrite writeCertFiles_lookup.
    by rewrite decide_True by done. }
  assert (fs (issued_world dir (types.ShortName n) req certs w)
            !! (pre +:+ "-key.pem") = Some (File (cert.Key certs))) as HK.
  { unfold issued_world. fold pre. rewrite writeCertFiles_lookup.
    rewrite decide_False by (by apply suffix_neq).
    by rewrite decide_True by done. }
  assert (fs (issued_world dir (types.ShortName n) req certs w)
            !! (pre +:+ ".csr") = Some (File (cert.Csr certs))) as HR.
  { unfold issued_world. fold pre. rewrite writeCertFiles_lookup.
    rewrite !decide_False by (by apply suffix_neq).
    by rewrite decide_True by done. }
  unfold cert.RetrieveNodeCertData, os.Stat, utils.ReadFileContent, file_at.
  fold dir. rewrite Hstat. cbn [IsDir negb].
  by rewrite !Hsfx, HC, HK, HR by done.
Qed.

End RetrievalClaims.

(** * The claims on a small lab

    The lab of [Toy]: nodes [r1] (kind [linux]) and [n1] (kind [srl]),
    lab directory [lab/ca], root CA under [lab/ca/root]. *)

Section ToyFacts.

Lemma toy_verify_app (root rest : bytes) :
  Toy.verify root (root ++ rest) = true.
Proof.
  induction root as [|b root IH]; [done|]. simpl.
  rewrite IH. by rewrite Byte.byte_dec_lb by done.
Qed.

Lemma toy_signer_sound (files : gmap string entry) (ca caKey : string)
    (s rootCert rootKey : bytes) (req : signer.SignRequest) (crt : bytes) :
  Toy.root_pair rootCert rootKey →
  files !! ca = Some (File rootCert) →
  files !! caKey = Some (File rootKey) →
  Toy.newSigner files ca caKey = Ok s →
  Toy.sign s req = Ok crt →
  Toy.verify rootCert crt = true.
Proof.
  intros _ Hca Hkey Hn Hs. unfold Toy.newSigner in Hn.
  rewrite Hca, Hkey in Hn. injection Hn as <-.
  injection Hs as <-. apply toy_verify_app.
Qed.

End ToyFacts.

Lemma CreateRootCA_skips_iff_root_pair_exists_witness :
  cert.hasCAKind Toy.srlLab = true ∧
  ((cert.CreateRootCA (H:=Toy.externals) "lab" "lab/ca/root"
      Toy.srlLab Toy.empty).2 = Toy.empty
   ↔ root_pair_exists "lab/ca/root" Toy.empty).
Proof.
  split; [vm_compute; reflexivity|].
  refine (proj2 (proj2 (@CreateRootCA_skips_iff_root_pair_exists
            Toy.externals "lab" "lab/ca/root" Toy.srlLab Toy.empty _))).
  vm_compute; reflexivity.
Defined.

Lemma CreateRootCA_idempotent_witness :
  cert.CreateRootCA (H:=Toy.externals) "lab" "lab/ca/root"
    Toy.srlLab Toy.withRoot = (None, Toy.withRoot).
Proof.
  refine (proj1 (@CreateRootCA_idempotent Toy.externals "lab" "lab/ca/root"
                   Toy.srlLab Toy.empty Toy.withRoot _) _).
  - vm_compute; reflexivity.
  - split; vm_compute; eexists; reflexivity.
Defined.

Lemma CreateRootCA_necessity_gating_witness :
  cert.CreateRootCA (H:=Toy.externals) "lab" "lab/ca/root"
    Toy.linuxLab Toy.empty = (None, Toy.empty)
  ∧ cert.CreateRootCA (H:=Toy.externals) "lab" "lab/ca/root"
      Toy.srlLab Toy.withRoot = (None, Toy.withRoot).
Proof.
  split.
  - refine (proj1 (proj2 (@CreateRootCA_necessity_gating
              Toy.externals "lab" "lab/ca/root" Toy.linuxLab Toy.empty)) _).
    intros (name & n & Hl & Hk).
    unfold Toy.linuxLab in Hl. apply lookup_singleton_Some in Hl as [_ <-].
    vm_compute in Hk. by apply list_elem_of_singleton in Hk.
  - refine (proj1 (proj2 (proj2 (@CreateRootCA_necessity_gating
              Toy.externals "lab" "lab/ca/root" Toy.srlLab Toy.withRoot))
              _) _).
    + exists "n1", (Toy.node "n1" "srl"). split; [vm_compute; reflexivity|].
      apply list_elem_of_singleton. reflexivity.
    + split; vm_compute; eexists; reflexivity.
Defined.

Lemma GenerateCert_chains_to_root_witness :
  Toy.verify Toy.rootCert (cert.Cert (Toy.bundle "n1")) = true.
Proof.
  apply (@GenerateCert_chains_to_root Toy.externals Toy.verify Toy.root_pair
           toy_signer_sound Toy.caFile Toy.caKeyFile Toy.leafTpl
           (Toy.leafInput "n1") (filepath.Join "lab/ca" "n1") Toy.withRoot
           (Toy.issue "n1").2 (Toy.bundle "n1") Toy.rootCert Toy.rootKey).
  - exact I.
  - vm_compute; reflexivity.
  - vm_compute; reflexivity.
  - vm_compute; reflexivity.
Defined.

Lemma writeCertFiles_layout_witness :
  fs (Toy.issue "n1").2 =
    fs (cert.writeCertFiles (Toy.bundle "n1")
          (filepath.Join (filepath.Join "lab/ca" "n1") "n1")
          (utils.CreateDirectory (filepath.Join "lab/ca" "n1")
             cert.perm0755 Toy.withRoot))
  ∧ is_Some (fs (Toy.issue "n1").2 !! filepath.Join "lab/ca" "n1").
Proof.
  refine (proj1 (proj2 (proj2 (@writeCertFiles_layout Toy.externals
            (Toy.bundle "n1") "lab/ca/n1/n1" Toy.empty)))
            Toy.caFile Toy.caKeyFile Toy.leafTpl (Toy.leafInput "n1")
            (filepath.Join "lab/ca" "n1") Toy.withRoot (Toy.issue "n1").2 _).
  vm_compute; reflexivity.
Defined.


Lemma GenerateCert_failure_writes_no_file_witness :
  let w1 := utils.CreateDirectory "lab/ca/n1" cert.perm0755 Toy.withRoot in
  cert.GenerateCert (H:=Toy.externals) Toy.caFile Toy.caKeyFile Toy.badTpl
    (Toy.leafInput "n1") "lab/ca/n1" Toy.withRoot
  = ((None, Some (ErrLib "invalid character")), w1)
  ∧ (∀ p, file_at w1 p = file_at Toy.withRoot p)
  ∧ logs w1 = logs Toy.withRoot.
Proof.
  apply (@GenerateCert_failure_writes_no_file Toy.externals
           Toy.caFile Toy.caKeyFile Toy.badTpl (Toy.leafInput "n1")
           "lab/ca/n1" Toy.withRoot (ErrLib "invalid character")).
  refine (@fails_unmarshal Toy.externals Toy.badTpl (Toy.leafInput "n1") _
            Toy.caFile Toy.caKeyFile (to_bytes "!") _ _ _);
    vm_compute; reflexivity.
Defined.

(** C7, as stated, fails where it asks for an error with context:
    when unmarshalling refuses the rendered document, [GenerateCert]
    returns the error of [json.Unmarshal] itself, with nothing added. *)
Lemma GenerateCert_failure_error_is_bare :
  let e := ErrLib "invalid character" in
  @json_Unmarshal Toy.externals (to_bytes "!")
    (@cert.newRequest Toy.externals) = Err e
  ∧ (cert.GenerateCert (H:=Toy.externals) Toy.caFile Toy.caKeyFile
       Toy.badTpl (Toy.leafInput "n1") "lab/ca/n1" Toy.withRoot).1
    = (None, Some e)
  ∧ has_context e = false.
Proof. vm_compute. by repeat split. Qed.

Lemma RetrieveNodeCertData_not_a_directory_witness :
  cert.RetrieveNodeCertData (Toy.config "n1" "srl") "lab/ca" Toy.occupied
  = ((None, None), Toy.occupied).
Proof.
  apply (RetrieveNodeCertData_not_a_directory
           (Toy.config "n1" "srl") "lab/ca" Toy.occupied []).
  vm_compute; reflexivity.
Defined.

Lemma RetrieveNodeCertData_after_GenerateCert_witness :
  cert.RetrieveNodeCertData (Toy.config "n1" "srl") "lab/ca" (Toy.issue "n1").2
  = ((Some {| cert.Key := cert.Key (Toy.bundle "n1"); cert.Csr := [];
              cert.Cert := cert.Cert (Toy.bundle "n1") |}, None),
     (Toy.issue "n1").2).
Proof.
  refine (proj1 (@RetrieveNodeCertData_after_GenerateCert Toy.externals
            Toy.caFile Toy.caKeyFile Toy.leafTpl (Toy.leafInput "n1")
            (Toy.config "n1" "srl") "lab/ca" Toy.withRoot (Toy.issue "n1").2
            (Toy.bundle "n1") _ _ _ _)); vm_compute; reflexivity.
Defined.

(** C10, as stated, fails for a node whose short name is empty: the
    certificate is issued and stored as [lab/ca.pem], [lab/ca-key.pem]
    and [lab/ca.csr], next to the directory [lab/ca]; retrieval looks
    for [lab/ca/.pem] inside it and reports that it does not exist. *)
Lemma RetrieveNodeCertData_after_GenerateCert_empty_name :
  let n := Toy.config "" "srl" in
  let input := Toy.leafInput "" in
  let targetPath := filepath.Join "lab/ca" (types.ShortName n) in
  cert.CertInput.Name input = types.ShortName n
  ∧ (cert.GenerateCert (H:=Toy.externals) Toy.caFile Toy.caKeyFile
       Toy.leafTpl input targetPath Toy.withRoot).1
    = (Some (Toy.bundle ""), None)
  ∧ cert.RetrieveNodeCertData n "lab/ca"
      (cert.GenerateCert (H:=Toy.externals) Toy.caFile Toy.caKeyFile
         Toy.leafTpl input targetPath Toy.withRoot).2
    = ((None, Some (ErrNotExist "open" "lab/ca/.pem")),
       (cert.GenerateCert (H:=Toy.externals) Toy.caFile Toy.caKeyFile
          Toy.leafTpl input targetPath Toy.withRoot).2).
Proof. vm_compute. by repeat split. Qed.

(** * Further properties *)

(** ** Canonical paths *)

Section CanonFacts.
Import filepath.

Lemma elements_all_no_slash (p : string) :
  Forall (λ e, Str.has_slash e = false) (elements p).
Proof.
  induction p as [|c p IH]; simpl; [by repeat constructor|].
  destruct (Ascii.eqb c "/") eqn:Hc; [by constructor|].
  destruct (elements p) as [|e es]; [by repeat constructor; simpl; rewrite Hc|].
  inversion IH; subst. constructor; [|done]. simpl. by rewrite Hc.
Qed.

Lemma all_dotdot_canon (out : list string) :
  Forall (λ e, e = "..") out → canon false out.
Proof.
  induction 1 as [|e out -> Hout IH]; [constructor|].
  by apply canon_dotdot.
Qed.

Lemma clean_step_canon (r : bool) (out : list string) (e : string) :
  canon r out → Str.has_slash e = false → canon r (clean_step r out e).
Proof.
  intros Hc He. unfold clean_step.
  destruct (String.eqb_spec e ""); [done|].
  destruct (String.eqb_spec e "."); [done|].
  destruct (String.eqb_spec e "..") as [->|].
  - destruct out as [|top below].
    + destruct r; [constructor|]. by apply canon_dotdot.
    + destruct (String.eqb_spec top "..") as [->|Htop].
      * inversion Hc as [|out' Hr Hall|e' out' Ho]; subst.
        -- apply canon_dotdot; [done|]. by constructor.
        -- done.
      * by inversion Hc; subst.
  - apply canon_ord; [|done..]. apply ordinary_spec. done.
Qed.

Lemma clean_fold_canon (r : bool) (es out : list string) :
  canon r out → Forall (λ e, Str.has_slash e = false) es →
  canon r (fold_left (clean_step r) es out).
Proof.
  intros Hc Hes. revert out Hc.
  induction Hes as [|e es He Hes IH]; intros out Hc; [done|].
  simpl. apply IH. by apply clean_step_canon.
Qed.

(** Processing the kept elements again keeps them all. *)
Lemma clean_fold_rev (r : bool) (out : list string) :
  canon r out → fold_left (clean_step r) (rev out) [] = out.
Proof.
  induction out as [|e out IH]; [done|]. intros Hc.
  simpl. rewrite fold_left_app. simpl.
  inversion Hc as [|out' Hr Hall|e' out' Ho Hs Hc']; subst.
  - rewrite IH by by apply all_dotdot_canon.
    unfold clean_step. simpl.
    destruct out as [|top below]; [done|].
    inversion Hall; subst. done.
  - rewrite IH by done. by apply clean_step_ordinary.
Qed.

Lemma elements_join (l : list string) :
  l ≠ [] → Forall (λ e, Str.has_slash e = false) l →
  elements (Str.join "/" l) = l.
Proof.
  intros Hne Hl. induction Hl as [|e l He Hl IH]; [done|].
  destruct l as [|x l]; [by apply elements_no_slash|].
  change (Str.join "/" (e :: x :: l))
    with (e +:+ "/" +:+ Str.join "/" (x :: l)).
  rewrite elements_app_sep, (elements_no_slash e) by done.
  by rewrite IH.
Qed.

Lemma canon_no_slash (r : bool) (out : list string) :
  canon r out → Forall (λ e, Str.has_slash e = false) out.
Proof.
  induction out as [|e out IH]; [done|]. intros Hc.
  inversion Hc as [|out' Hr Hall|e' out' Ho Hs Hc']; subst.
  - constructor; [done|]. apply IH. by apply all_dotdot_canon.
  - constructor; [done|]. by apply IH.
Qed.

Lemma canon_nonempty (r : bool) (out : list string) :
  canon r out → Forall (λ e, e ≠ "") out.
Proof.
  induction out as [|e out IH]; [done|]. intros Hc.
  inversion Hc as [|out' Hr Hall|e' out' Ho Hs Hc']; subst.
  - constructor; [done|]. apply IH. by apply all_dotdot_canon.
  - constructor; [|by apply IH]. apply ordinary_spec in Ho. tauto.
Qed.

Lemma join_head (l : list string) (x : string) :
  Str.join "/" (x :: l) =
    match l with
    | [] => x
    | _ => x +:+ "/" +:+ Str.join "/" l
    end.
Proof. by destruct l. Qed.

Lemma join_first_char (l : list string) :
  l ≠ [] → Forall (λ e, Str.has_slash e = false) l →
  Forall (λ e, e ≠ "") l →
  Str.join "/" l ≠ "" ∧ rooted (Str.join "/" l) = false.
Proof.
  intros Hne Hs Hn. destruct l as [|x l]; [done|].
  inversion Hs; subst. inversion Hn; subst.
  destruct x as [|c x]; [done|].
  assert (Ascii.eqb c "/" = false) as Hc.
  { simpl in *. by destruct (Ascii.eqb c "/"). }
  rewrite join_head. destruct l; simpl; [done|].
  by rewrite StrFacts.app_cons.
Qed.

Lemma canon_render_facts (r : bool) (out : list string) :
  canon r out → out ≠ [] →
  clean_render r out ≠ ""
  ∧ rooted (clean_render r out) = r
  ∧ fold_left (clean_step r) (elements (clean_render r out)) [] = out.
Proof.
  intros Hc Hne.
  assert (rev out ≠ []) as Hrev.
  { destruct out; [done|]. simpl. by destruct (rev out). }
  assert (Forall (λ e, Str.has_slash e = false) (rev out)) as Hs
    by (apply Forall_rev; by eapply canon_no_slash).
  assert (Forall (λ e, e ≠ "") (rev out)) as Hn
    by (apply Forall_rev; by eapply canon_nonempty).
  destruct (join_first_char (rev out) Hrev Hs Hn) as [Hj Hr].
  assert (clean_render r out =
            (if r then "/" else "") +:+ Str.join "/" (rev out)) as ->
    by (by destruct out).
  destruct r.
  - rewrite StrFacts.app_cons, StrFacts.app_nil_l. repeat split; [done|].
    change (elements (String "/" (Str.join "/" (rev out))))
      with ("" :: elements (Str.join "/" (rev out))).
    rewrite elements_join by done.
    change (fold_left (clean_step true) ("" :: rev out) [])
      with (fold_left (clean_step true) (rev out) []).
    by apply clean_fold_rev.
  - rewrite StrFacts.app_nil_l. repeat split; [done..|].
    rewrite elements_join by done. by apply clean_fold_rev.
Qed.

(** A cleaned path is not changed by cleaning it again. *)
Lemma Clean_render (r : bool) (out : list string) :
  canon r out → Clean (clean_render r out) = clean_render r out.
Proof.
  intros Hc. destruct out as [|e out]; [by destruct r|].
  destruct (canon_render_facts r (e :: out) Hc) as (Hne & Hr & Hf); [done|].
  unfold Clean. destruct (String.eqb_spec (clean_render r (e :: out)) "");
    [done|].
  by rewrite Hr, Hf.
Qed.

Lemma Clean_canon (p : string) :
  p ≠ "" →
  canon (rooted p) (fold_left (clean_step (rooted p)) (elements p) [])
  ∧ Clean p =
      clean_render (rooted p)
        (fold_left (clean_step (rooted p)) (elements p) []).
Proof.
  intros Hp. split.
  - apply clean_fold_canon; [constructor|apply elements_all_no_slash].
  - unfold Clean. by destruct (String.eqb_spec p "").
Qed.

Lemma Clean_idempotent (p : string) : Clean (Clean p) = Clean p.
Proof.
  destruct (String.eqb_spec p "") as [->|Hp]; [done|].
  destruct (Clean_canon p Hp) as [Hc ->]. by apply Clean_render.
Qed.

Lemma plain_spec (n : string) :
  plain n = true ↔ Str.has_slash n = false ∧ ordinary n = true.
Proof. unfold plain. by rewrite andb_true_iff, negb_true_iff. Qed.

Lemma plain_app (n sfx : string) :
  plain n = true → Str.has_slash sfx = false → plain (n +:+ sfx) = true.
Proof.
  rewrite !plain_spec. intros [Hs Ho] Hsfx. split.
  - by apply has_slash_app.
  - by apply ordinary_app.
Qed.

(** Joining a plain name to a cleaned path that has elements puts the
    name after it, behind a separator. *)
Lemma Join_render (r : bool) (out : list string) (x : string) :
  canon r out → out ≠ [] → plain x = true →
  Join (clean_render r out) x = clean_render r out +:+ "/" +:+ x.
Proof.
  intros Hc Hne [Hs Ho]%plain_spec.
  destruct (canon_render_facts r out Hc Hne) as (Hn & Hr & Hf).
  unfold Join. destruct (String.eqb_spec (clean_render r out) ""); [done|].
  rewrite (Clean_last_ordinary _ x (elements (clean_render r out))).
  - rewrite rooted_app, Hr, Hf by done.
    unfold clean_prefix, clean_render. destruct out; [done|].
    by rewrite !StrFacts.app_assoc.
  - destruct (clean_render r out); [done|]. by rewrite StrFacts.app_cons.
  - by rewrite elements_app_sep, (elements_no_slash x).
  - done.
Qed.

(** The path of a node's file: the node's directory, a separator, the
    file name. *)
Lemma Join_Join_plain (dir n x : string) :
  plain n = true → plain x = true →
  Join (Join dir n) x = Join dir n +:+ "/" +:+ x.
Proof.
  intros Hn Hx. pose proof Hn as [Hs Ho]%plain_spec.
  assert (n ≠ "") as Hn0 by (apply ordinary_spec in Ho; tauto).
  assert (∃ p, p ≠ "" ∧ Join dir n = Clean p ∧
               ∃ es, elements p = es ++ [n]) as (p & Hp & -> & es & Hes).
  { unfold Join. destruct (String.eqb_spec dir "") as [->|Hd].
    - destruct (String.eqb_spec n ""); [done|].
      exists n. split; [done|]. split; [done|].
      exists []. by apply elements_no_slash.
    - exists (dir +:+ "/" +:+ n). split.
      + destruct dir; [done|]. by rewrite StrFacts.app_cons.
      + split; [done|]. exists (elements dir).
        by rewrite elements_app_sep, (elements_no_slash n). }
  destruct (Clean_canon p Hp) as [Hc ->].
  apply Join_render; [done| |done].
  rewrite Hes, fold_left_app. simpl. by rewrite clean_step_ordinary.
Qed.

Lemma Join_plain_prefix (dir n : string) :
  plain n = true → Join dir n = dir_prefix dir +:+ n.
Proof.
  intros [Hs Ho]%plain_spec.
  assert (n ≠ "") as Hn0 by (apply ordinary_spec in Ho; tauto).
  unfold Join, dir_prefix. destruct (String.eqb_spec dir "") as [->|Hd].
  - destruct (String.eqb_spec n ""); [done|].
    rewrite (Clean_last_ordinary n n []); [|done|by apply elements_no_slash|done].
    simpl. destruct n as [|c n]; [done|]. simpl in *.
    by destruct (Ascii.eqb c "/").
  - rewrite (Clean_last_ordinary _ n (elements dir)).
    + by rewrite rooted_app.
    + destruct dir; [done|]. by rewrite StrFacts.app_cons.
    + by rewrite elements_app_sep, (elements_no_slash n).
    + done.
Qed.

End CanonFacts.

(** ** The node template *)

Section NodeTemplate.

Lemma NodeCSRTempl_tree (name : string) :
  ∃ t0 t1 t2 t3 t4 t5,
    template.Parse name cert.NodeCSRTempl =
      Ok {| template.Name := name;
            template.Tree :=
              [template.Text t0; template.Field "Name";
               template.Text t1; template.Field "Prefix";
               template.Text t2; template.Field "Name";
               template.Text t3; template.Field "LongName";
               template.Text t4; template.Field "Fqdn";
               template.Text t5] |}
    ∧ ∀ input,
        nodeCSRDoc input =
          t0 +:+ cert.CertInput.Name input +:+ t1
          +:+ cert.CertInput.Prefix input +:+ t2
          +:+ cert.CertInput.Name input +:+ t3
          +:+ cert.CertInput.LongName input +:+ t4
          +:+ cert.CertInput.Fqdn input +:+ t5.
Proof.
  eexists _, _, _, _, _, _. split; [vm_compute; reflexivity|].
  intros input. reflexivity.
Qed.

(** X1. The package's node template parses, and executing it cannot fail:
    for every input it gives the document with common name
    [Name.Prefix.io] and the hosts [Name], [LongName], [Fqdn], in this
    order and as they are. *)
Theorem NodeCSRTempl_renders (name : string) :
  ∃ tpl,
    template.Parse name cert.NodeCSRTempl = Ok tpl ∧
    ∀ input,
      template.Execute tpl (cert.CertInput.field input)
        = Ok (to_bytes (nodeCSRDoc input)).
Proof.
  destruct (NodeCSRTempl_tree name)
    as (t0 & t1 & t2 & t3 & t4 & t5 & Hparse & Hdoc).
  eexists. split; [exact Hparse|]. intros input.
  unfold template.Execute. simpl. rewrite Hdoc.
  by rewrite StrFacts.app_nil_l, !StrFacts.app_assoc.
Qed.

End NodeTemplate.

(** ** The generators *)

Section GeneratorFacts.
Context `{Externals}.


(** X3. [GenerateCert] returns a bundle exactly when it returns a nil
    error: never a nil bundle with a nil error, never a bundle with an
    error. *)
Theorem GenerateCert_bundle_xor_error (ca caKey : string)
    (tpl : template.Template) (input : cert.CertInput.t)
    (targetPath : string) (w : World) :
  (∃ certs, (cert.GenerateCert ca caKey tpl input targetPath w).1
              = (Some certs, None))
  ∨ (∃ e, (cert.GenerateCert ca caKey tpl input targetPath w).1
            = (None, Some e)).
Proof.
  destruct (cert.GenerateCert ca caKey tpl input targetPath w)
    as [o w'] eqn:Hg.
  apply GenerateCert_inv in Hg
    as [(e & _ & -> & _)|(req & s & certs & _ & -> & _)].
  - right. by exists e.
  - left. by exists certs.
Qed.

Lemma issued_world_fs (targetPath name : string)
    (req : csr.CertificateRequest) (certs : cert.Certificates) (w : World) :
  fs (issued_world targetPath name req certs w) =
    fs (cert.writeCertFiles certs (filepath.Join targetPath name)
          (utils.CreateDirectory targetPath cert.perm0755 w)).
Proof.
  unfold issued_world. rewrite !writeCertFiles_fs.
  by destruct (csr.Hosts req).
Qed.

Lemma GenerateCert_lookup_other (ca caKey : string)
    (tpl : template.Template) (input : cert.CertInput.t)
    (targetPath : string) (w : World) (p : string) :
  let filesPrefix := filepath.Join targetPath (cert.CertInput.Name input) in
  p ≠ targetPath →
  p ≠ filesPrefix +:+ ".pem" → p ≠ filesPrefix +:+ "-key.pem" →
  p ≠ filesPrefix +:+ ".csr" →
  fs (cert.GenerateCert ca caKey tpl input targetPath w).2 !! p = fs w !! p.
Proof.
  intros filesPrefix Hp H1 H2 H3.
  destruct (cert.GenerateCert ca caKey tpl input targetPath w)
    as [o w'] eqn:Hg.
  apply GenerateCert_inv in Hg
    as [(e & _ & _ & ->)|(req & s & certs & _ & _ & ->)]; cbn [snd].
  - rewrite CreateDirectory_lookup.
    destruct (fs w !! p); [done|]. by rewrite decide_False.
  - rewrite issued_world_fs, writeCertFiles_lookup.
    fold filesPrefix. rewrite !decide_False by done.
    rewrite CreateDirectory_lookup.
    destruct (fs w !! p); [done|]. by rewrite decide_False.
Qed.

(** X4. What [GenerateCert] leaves alone: every path other than
    [targetPath] and the three files of the bundle holds after the call
    what it held before, whatever the outcome; and the log grows by the
    one warning at most. *)
Theorem GenerateCert_frame (ca caKey : string)
    (tpl : template.Template) (input : cert.CertInput.t)
    (targetPath : string) (w : World) :
  let filesPrefix := filepath.Join targetPath (cert.CertInput.Name input) in
  let w' := (cert.GenerateCert ca caKey tpl input targetPath w).2 in
  (∀ p, p ≠ targetPath →
        p ≠ filesPrefix +:+ ".pem" → p ≠ filesPrefix +:+ "-key.pem" →
        p ≠ filesPrefix +:+ ".csr" →
        fs w' !! p = fs w !! p)
  ∧ (logs w' = logs w
     ∨ logs w' = logs w ++ [(Warning, generator_CSRNoHostMessage)]).
Proof.
  intros filesPrefix w'. subst w'. split.
  - intros p. apply GenerateCert_lookup_other.
  - destruct (cert.GenerateCert ca caKey tpl input targetPath w)
      as [o w'] eqn:Hg.
    apply GenerateCert_inv in Hg
      as [(e & _ & _ & ->)|(req & s & certs & _ & _ & ->)]; cbn [snd].
    + left. apply CreateDirectory_logs.
    + unfold issued_world. rewrite writeCertFiles_logs.
      destruct (csr.Hosts req); simpl; rewrite CreateDirectory_logs; auto.
Qed.

End GeneratorFacts.

(** ** Writing bundles over one another *)

Section OverwriteFacts.

Lemma World_eq (w1 w2 : World) :
  fs w1 = fs w2 → logs w1 = logs w2 → w1 = w2.
Proof. destruct w1, w2. simpl. by intros -> ->. Qed.

(** X5. Storing a bundle under a prefix replaces all three files of a
    bundle stored there before: the result is as if the first bundle had
    never been written. *)
Theorem writeCertFiles_overwrites (c1 c2 : cert.Certificates)
    (filesPrefix : string) (w : World) :
  cert.writeCertFiles c2 filesPrefix (cert.writeCertFiles c1 filesPrefix w)
    = cert.writeCertFiles c2 filesPrefix w.
Proof.
  apply World_eq; [|done]. apply map_eq. intros p.
  rewrite !writeCertFiles_lookup. by repeat case_decide.
Qed.

(** X6. The suffixes overlap: the certificate of a bundle stored under
    [prefix-key] is written to the path of the key of the bundle stored
    under [prefix], which is lost; its certificate and CSR stay. *)
Theorem writeCertFiles_key_suffix_collision (c1 c2 : cert.Certificates)
    (filesPrefix : string) (w : World) :
  let w' := cert.writeCertFiles c2 (filesPrefix +:+ "-key")
              (cert.writeCertFiles c1 filesPrefix w) in
  file_at w' (filesPrefix +:+ "-key.pem") = Some (cert.Cert c2)
  ∧ file_at w' (filesPrefix +:+ ".pem") = Some (cert.Cert c1)
  ∧ file_at w' (filesPrefix +:+ ".csr") = Some (cert.Csr c1).
Proof.
  intros w'. subst w'. unfold file_at.
  rewrite !writeCertFiles_lookup, !StrFacts.app_assoc.
  change ("-key" +:+ ".pem") with "-key.pem".
  change ("-key" +:+ "-key.pem") with "-key-key.pem".
  change ("-key" +:+ ".csr") with "-key.csr".
  repeat split.
  - by rewrite decide_True.
  - rewrite !decide_False by (by apply suffix_neq). by rewrite decide_True.
  - rewrite !decide_False by (by apply suffix_neq).
    by rewrite decide_True.
Qed.

End OverwriteFacts.

(** ** The store of a node *)

Section NodeStoreFacts.
Context `{Externals}.

Lemma has_slash_sep (x y : string) : Str.has_slash (x +:+ "/" +:+ y) = true.
Proof.
  induction x as [|c x IH]; [done|]. rewrite StrFacts.app_cons. simpl.
  by destruct (Ascii.eqb c "/").
Qed.

Lemma sep_paths_neq (pre a b ra rb : string) :
  Str.has_slash a = false → Str.has_slash b = false → a ≠ b →
  pre +:+ a +:+ "/" +:+ ra ≠ pre +:+ b +:+ "/" +:+ rb.
Proof.
  intros Ha Hb Hne Heq. apply (inj (String.app pre)) in Heq.
  apply (f_equal filepath.elements) in Heq.
  rewrite !elements_app_sep, (elements_no_slash a), (elements_no_slash b)
    in Heq by done.
  by simplify_eq.
Qed.

Lemma sep_path_neq_name (pre a b rb : string) :
  Str.has_slash a = false → pre +:+ a ≠ pre +:+ b +:+ "/" +:+ rb.
Proof.
  intros Ha Heq. apply (inj (String.app pre)) in Heq.
  rewrite Heq, has_slash_sep in Ha. done.
Qed.

(** The three paths [RetrieveNodeCertData] looks at, for a plain name:
    the directory [Join(labCADir, n)] and the two files in it. *)
Lemma node_paths (labCADir n sfx : string) :
  plain n = true → Str.has_slash sfx = false →
  filepath.Join (filepath.Join labCADir n) (n +:+ sfx)
    = filepath.Join labCADir n +:+ "/" +:+ n +:+ sfx
  ∧ filepath.Join (filepath.Join labCADir n) n +:+ sfx
    = filepath.Join labCADir n +:+ "/" +:+ n +:+ sfx.
Proof.
  intros Hn Hs. split.
  - by rewrite Join_Join_plain by (done || by apply plain_app).
  - rewrite Join_Join_plain by done. by rewrite !StrFacts.app_assoc.
Qed.

(** The result of a retrieval depends on the three paths only. *)
Lemma RetrieveNodeCertData_ext (n : types.NodeConfig) (labCADir : string)
    (w1 w2 : World) :
  let dir := filepath.Join labCADir (types.ShortName n) in
  fs w1 !! dir = fs w2 !! dir →
  fs w1 !! filepath.Join dir (types.ShortName n +:+ ".pem")
    = fs w2 !! filepath.Join dir (types.ShortName n +:+ ".pem") →
  fs w1 !! filepath.Join dir (types.ShortName n +:+ "-key.pem")
    = fs w2 !! filepath.Join dir (types.ShortName n +:+ "-key.pem") →
  (cert.RetrieveNodeCertData n labCADir w1).1
    = (cert.RetrieveNodeCertData n labCADir w2).1.
Proof.
  intros dir Hd Hc Hk.
  unfold cert.RetrieveNodeCertData, os.Stat, utils.ReadFileContent.
  fold dir. rewrite Hd, Hc, Hk.
  destruct (fs w2 !! dir) as [stat|]; [|done].
  destruct (negb (IsDir stat)); [done|].
  destruct (fs w2 !! _) as [[|c]|]; try done.
  by destruct (fs w2 !! _) as [[|k]|].
Qed.

(** X7. [RetrieveNodeCertData] in full: it never changes anything; it
    returns a bundle (and a nil error) exactly when the node's path is a
    directory and both files in it are files, and the bundle then holds
    their contents and an empty CSR; it returns neither bundle nor error
    exactly when the node's path holds a regular file. *)
Theorem RetrieveNodeCertData_cases (n : types.NodeConfig)
    (labCADir : string) (w : World) :
  let dir := filepath.Join labCADir (types.ShortName n) in
  let certFile := filepath.Join dir (types.ShortName n +:+ ".pem") in
  let keyFile := filepath.Join dir (types.ShortName n +:+ "-key.pem") in
  (cert.RetrieveNodeCertData n labCADir w).2 = w
  ∧ (∀ certs,
       (cert.RetrieveNodeCertData n labCADir w).1 = (Some certs, None) ↔
       (∃ perm, fs w !! dir = Some (Dir perm))
       ∧ file_at w certFile = Some (cert.Cert certs)
       ∧ file_at w keyFile = Some (cert.Key certs)
       ∧ cert.Csr certs = [])
  ∧ ((cert.RetrieveNodeCertData n labCADir w).1 = (None, None) ↔
     ∃ content, fs w !! dir = Some (File content)).
Proof.
  intros dir certFile keyFile.
  split; [apply RetrieveNodeCertData_world|].
  unfold cert.RetrieveNodeCertData, os.Stat, utils.ReadFileContent, file_at.
  fold dir certFile keyFile.
  destruct (fs w !! dir) as [[perm|content]|];
    [destruct (fs w !! certFile) as [[pc|c]|];
       [| destruct (fs w !! keyFile) as [[pk|k]|] |] | |];
    cbn [IsDir negb];
    (split; [intros [k' r' c']; cbn [cert.Cert cert.Key cert.Csr]|]);
    (split;
     [ intros Heq; try discriminate Heq; try (injection Heq as <- <- <-);
       eauto 8
     | intros Hx;
       repeat match goal with
              | Hy : _ ∧ _ |- _ => destruct Hy
              | Hy : ∃ _, _ |- _ => destruct Hy
              end;
       try discriminate; cbn [fst]; congruence ]).
Qed.

(** X8. The layout of a node's store: issuing a certificate for a node with
    a plain name [n] into [Join(labCADir, n)] leaves a directory there
    and, in it, the certificate at [n.pem], the key at [n-key.pem] and
    the CSR at [n.csr]; every other path is as before. *)
Theorem GenerateCert_node_layout (ca caKey : string)
    (tpl : template.Template) (input : cert.CertInput.t)
    (labCADir n : string) (w w' : World) (certs : cert.Certificates) :
  let dir := filepath.Join labCADir n in
  plain n = true →
  cert.CertInput.Name input = n →
  cert.GenerateCert ca caKey tpl input dir w = ((Some certs, None), w') →
  is_Some (fs w' !! dir)
  ∧ file_at w' (dir +:+ "/" +:+ n +:+ ".pem") = Some (cert.Cert certs)
  ∧ file_at w' (dir +:+ "/" +:+ n +:+ "-key.pem") = Some (cert.Key certs)
  ∧ file_at w' (dir +:+ "/" +:+ n +:+ ".csr") = Some (cert.Csr certs)
  ∧ (∀ p, p ≠ dir → p ≠ dir +:+ "/" +:+ n +:+ ".pem" →
          p ≠ dir +:+ "/" +:+ n +:+ "-key.pem" →
          p ≠ dir +:+ "/" +:+ n +:+ ".csr" →
          fs w' !! p = fs w !! p).
Proof.
  intros dir Hn Hname Hg.
  pose proof (GenerateCert_lookup_other ca caKey tpl input dir w) as Hframe.
  rewrite Hg, Hname in Hframe. cbn [snd] in Hframe.
  apply GenerateCert_inv in Hg
    as [(e & _ & ? & _)|(req & s & certs' & _ & Ho & ->)]; [done|].
  injection Ho as <-. rewrite Hname in *.
  destruct (node_paths labCADir n ".pem" Hn eq_refl) as [_ E1].
  destruct (node_paths labCADir n "-key.pem" Hn eq_refl) as [_ E2].
  destruct (node_paths labCADir n ".csr" Hn eq_refl) as [_ E3].
  fold dir in E1, E2, E3. rewrite E1, E2, E3 in Hframe.
  unfold file_at. rewrite !issued_world_fs, !writeCertFiles_lookup.
  rewrite E1, E2, E3.
  assert (∀ sfx, dir ≠ dir +:+ "/" +:+ n +:+ sfx) as Hdir.
  { intros sfx Heq. rewrite <- (StrFacts.app_nil_r dir) in Heq at 1.
    by apply (inj (String.app dir)) in Heq. }
  split; [|split; [|split; [|split]]].
  - rewrite !decide_False by apply Hdir. apply CreateDirectory_exists.
  - by rewrite decide_True.
  - rewrite decide_False by (repeat apply suffix_neq; done).
    by rewrite decide_True.
  - rewrite !decide_False by (repeat apply suffix_neq; done).
    by rewrite decide_True.
  - intros p Hp H1 H2 H3. rewrite <- Hframe by done.
    by rewrite issued_world_fs, writeCertFiles_lookup, E1, E2, E3.
Qed.

Lemma GenerateCert_other_node_lookup (ca caKey : string)
    (tpl : template.Template) (input : cert.CertInput.t)
    (labCADir a : string) (w : World) (p : string) :
  let b := cert.CertInput.Name input in
  plain a = true → plain b = true → a ≠ b →
  (p = filepath.Join labCADir a ∨
   ∃ sfx, p = filepath.Join labCADir a +:+ "/" +:+ a +:+ sfx) →
  fs (cert.GenerateCert ca caKey tpl input
        (filepath.Join labCADir b) w).2 !! p = fs w !! p.
Proof.
  intros b Ha Hb Hne Hp.
  pose proof Ha as [Hsa _]%plain_spec. pose proof Hb as [Hsb _]%plain_spec.
  apply GenerateCert_lookup_other; fold b.
  - destruct Hp as [->|[sfx ->]]; rewrite !Join_plain_prefix by done.
    + by apply suffix_neq.
    + rewrite !StrFacts.app_assoc. intros Heq. symmetry in Heq.
      by apply sep_path_neq_name in Heq.
  - destruct (node_paths labCADir b ".pem" Hb eq_refl) as [_ ->].
    destruct Hp as [->|[sfx ->]]; rewrite !Join_plain_prefix by done;
      rewrite !StrFacts.app_assoc.
    + by apply sep_path_neq_name.
    + by apply sep_paths_neq.
  - destruct (node_paths labCADir b "-key.pem" Hb eq_refl) as [_ ->].
    destruct Hp as [->|[sfx ->]]; rewrite !Join_plain_prefix by done;
      rewrite !StrFacts.app_assoc.
    + by apply sep_path_neq_name.
    + by apply sep_paths_neq.
  - destruct (node_paths labCADir b ".csr" Hb eq_refl) as [_ ->].
    destruct Hp as [->|[sfx ->]]; rewrite !Join_plain_prefix by done;
      rewrite !StrFacts.app_assoc.
    + by apply sep_path_neq_name.
    + by apply sep_paths_neq.
Qed.

Lemma GenerateCert_other_node_retrieve (ca caKey : string)
    (tpl : template.Template) (input : cert.CertInput.t)
    (labCADir : string) (na : types.NodeConfig) (w : World) :
  let b := cert.CertInput.Name input in
  plain (types.ShortName na) = true → plain b = true →
  types.ShortName na ≠ b →
  (cert.RetrieveNodeCertData na labCADir
     (cert.GenerateCert ca caKey tpl input
        (filepath.Join labCADir b) w).2).1
  = (cert.RetrieveNodeCertData na labCADir w).1.
Proof.
  intros b Ha Hb Hne. set (a := types.ShortName na) in *.
  apply RetrieveNodeCertData_ext; fold a.
  - apply (GenerateCert_other_node_lookup _ _ _ _ _ a); [done..|]. by left.
  - destruct (node_paths labCADir a ".pem" Ha eq_refl) as [-> _].
    apply (GenerateCert_other_node_lookup _ _ _ _ _ a); [done..|].
    right. by eexists.
  - destruct (node_paths labCADir a "-key.pem" Ha eq_refl) as [-> _].
    apply (GenerateCert_other_node_lookup _ _ _ _ _ a); [done..|].
    right. by eexists.
Qed.

(** X9. Nodes do not disturb one another: issuing a certificate for a node
    [b] into its directory, whatever comes of it, does not change what a
    retrieval for another node [a] returns. *)
Theorem GenerateCert_preserves_other_node (ca caKey : string)
    (tpl : template.Template) (input : cert.CertInput.t)
    (labCADir : string) (na : types.NodeConfig) (w : World) :
  let b := cert.CertInput.Name input in
  plain (types.ShortName na) = true → plain b = true →
  types.ShortName na ≠ b →
  (cert.RetrieveNodeCertData na labCADir
     (cert.GenerateCert ca caKey tpl input
        (filepath.Join labCADir b) w).2).1
  = (cert.RetrieveNodeCertData na labCADir w).1.
Proof. apply GenerateCert_other_node_retrieve. Qed.

Lemma retrieve_after_issue (ca caKey : string)
    (tpl : template.Template) (input : cert.CertInput.t)
    (n : types.NodeConfig) (labCADir : string) (w w' : World)
    (certs : cert.Certificates) :
  let dir := filepath.Join labCADir (types.ShortName n) in
  plain (types.ShortName n) = true →
  cert.CertInput.Name input = types.ShortName n →
  file_at w dir = None →
  cert.GenerateCert ca caKey tpl input dir w = ((Some certs, None), w') →
  (cert.RetrieveNodeCertData n labCADir w').1 =
    (Some {| cert.Key := cert.Key certs; cert.Csr := [];
             cert.Cert := cert.Cert certs |}, None).
Proof.
  intros dir Hn Hname Hdir Hg. set (a := types.ShortName n) in *.
  apply GenerateCert_inv in Hg
    as [(e & _ & ? & _)|(req & s & certs' & _ & Ho & ->)]; [done|].
  injection Ho as <-. rewrite Hname.
  destruct (node_paths labCADir a ".pem" Hn eq_refl) as [R1 W1].
  destruct (node_paths labCADir a "-key.pem" Hn eq_refl) as [R2 W2].
  destruct (node_paths labCADir a ".csr" Hn eq_refl) as [_ W3].
  fold dir in R1, R2, W1, W2, W3.
  assert (∀ sfx, dir ≠ dir +:+ "/" +:+ a +:+ sfx) as Hneq.
  { intros sfx Heq. rewrite <- (StrFacts.app_nil_r dir) in Heq at 1.
    by apply (inj (String.app dir)) in Heq. }
  assert (∀ p, fs (issued_world dir a req certs w) !! p =
    if decide (p = dir +:+ "/" +:+ a +:+ ".pem")
    then Some (File (cert.Cert certs))
    else if decide (p = dir +:+ "/" +:+ a +:+ "-key.pem")
    then Some (File (cert.Key certs))
    else if decide (p = dir +:+ "/" +:+ a +:+ ".csr")
    then Some (File (cert.Csr certs))
    else fs (utils.CreateDirectory dir cert.perm0755 w) !! p) as Hlook.
  { intros p. by rewrite issued_world_fs, writeCertFiles_lookup, W1, W2, W3. }
  assert (∃ perm, fs (issued_world dir a req certs w) !! dir
                    = Some (Dir perm)) as [perm Hstat].
  { rewrite Hlook, !decide_False by apply Hneq.
    rewrite CreateDirectory_lookup. unfold file_at in Hdir.
    destruct (fs w !! dir) as [[perm|c]|]; [by eexists|done|].
    rewrite decide_True by done. by eexists. }
  assert (fs (issued_world dir a req certs w)
            !! (dir +:+ "/" +:+ a +:+ ".pem")
          = Some (File (cert.Cert certs))) as HC.
  { rewrite Hlook. by rewrite decide_True. }
  assert (fs (issued_world dir a req certs w)
            !! (dir +:+ "/" +:+ a +:+ "-key.pem")
          = Some (File (cert.Key certs))) as HK.
  { rewrite Hlook. rewrite decide_False by (repeat apply suffix_neq; done).
    by rewrite decide_True. }
  unfold cert.RetrieveNodeCertData, os.Stat, utils.ReadFileContent.
  fold a dir. rewrite R1, R2, Hstat. cbn [IsDir negb].
  by rewrite HC, HK.
Qed.

(** X14. Two nodes of one lab: after a certificate was issued for [a] and
    then one for [b], each into its own directory, retrieval gives each
    node the certificate and key of its own bundle. *)
Theorem issue_two_nodes_then_retrieve (ca caKey : string)
    (tplA tplB : template.Template) (inA inB : cert.CertInput.t)
    (na nb : types.NodeConfig) (labCADir : string) (w0 w1 w2 : World)
    (certsA certsB : cert.Certificates) :
  let a := types.ShortName na in
  let b := types.ShortName nb in
  plain a = true → plain b = true → a ≠ b →
  cert.CertInput.Name inA = a → cert.CertInput.Name inB = b →
  file_at w0 (filepath.Join labCADir a) = None →
  file_at w0 (filepath.Join labCADir b) = None →
  cert.GenerateCert ca caKey tplA inA (filepath.Join labCADir a) w0
    = ((Some certsA, None), w1) →
  cert.GenerateCert ca caKey tplB inB (filepath.Join labCADir b) w1
    = ((Some certsB, None), w2) →
  (cert.RetrieveNodeCertData na labCADir w2).1 =
    (Some {| cert.Key := cert.Key certsA; cert.Csr := [];
             cert.Cert := cert.Cert certsA |}, None)
  ∧ (cert.RetrieveNodeCertData nb labCADir w2).1 =
    (Some {| cert.Key := cert.Key certsB; cert.Csr := [];
             cert.Cert := cert.Cert certsB |}, None).
Proof.
  intros a b Ha Hb Hne HnA HnB HdA HdB HgA HgB. split.
  - pose proof (GenerateCert_other_node_retrieve ca caKey tplB inB
                  labCADir na w1) as Hiso.
    cbv zeta in Hiso. rewrite HnB in Hiso. fold a b in Hiso.
    rewrite HgB in Hiso. cbn [snd] in Hiso. rewrite Hiso by done.
    by eapply retrieve_after_issue.
  - eapply retrieve_after_issue; [done..| |done].
    pose proof (GenerateCert_other_node_lookup ca caKey tplA inA
                  labCADir b w0 (filepath.Join labCADir b)) as Hl.
    cbv zeta in Hl. rewrite HnA in Hl. fold a in Hl.
    rewrite HgA in Hl. cbn [snd] in Hl.
    fold b. unfold file_at in *.
    rewrite Hl; [done|done|done| |by left]. by intros ->.
Qed.

End NodeStoreFacts.

(** ** Bootstrap and what follows *)

Section BootstrapFacts.
Context `{Externals}.

(** A plain name joined to a path never gives the path back. *)
Lemma Join_plain_neq_dir (dir x : string) :
  plain x = true → filepath.Join dir x ≠ dir.
Proof.
  intros Hx Heq.
  pose proof (Join_Join_plain dir x x Hx Hx) as HJ.
  rewrite Heq in HJ at 1. rewrite Heq in HJ.
  apply (f_equal String.length) in HJ.
  rewrite !StrFacts.app_length in HJ. simpl in HJ. lia.
Qed.

Lemma root_paths (labCARoot sfx : string) :
  Str.has_slash sfx = false →
  filepath.Join labCARoot "root-ca" +:+ sfx
    = filepath.Join labCARoot ("root-ca" +:+ sfx).
Proof. intros Hs. by apply Join_suffix. Qed.

Lemma rootCAStarted_lookup_file (labCARoot x : string) (w : World) :
  plain x = true →
  fs (rootCAStarted labCARoot w) !! filepath.Join labCARoot x
    = fs w !! filepath.Join labCARoot x.
Proof.
  intros Hx. unfold rootCAStarted. rewrite CreateDirectory_lookup, emit_fs.
  destruct (fs w !! filepath.Join labCARoot x); [done|].
  rewrite decide_False; [done|]. intros Heq. symmetry in Heq.
  by apply Join_plain_neq_dir in Heq.
Qed.

Lemma CreateRootCA_lookup_other (configName labCARoot : string)
    (ns : gmap string nodes.Node) (w : World) (p : string) :
  p ≠ labCARoot →
  p ≠ filepath.Join labCARoot "root-ca.pem" →
  p ≠ filepath.Join labCARoot "root-ca-key.pem" →
  p ≠ filepath.Join labCARoot "root-ca.csr" →
  fs (cert.CreateRootCA configName labCARoot ns w).2 !! p = fs w !! p.
Proof.
  intros Hp H1 H2 H3.
  assert (fs (rootCAStarted labCARoot w) !! p = fs w !! p) as Hstart.
  { unfold rootCAStarted. rewrite CreateDirectory_lookup, emit_fs.
    destruct (fs w !! p); [done|]. by rewrite decide_False. }
  destruct (cert.hasCAKind ns) eqn:Hn;
    [|by rewrite CreateRootCA_not_needed].
  destruct (root_pair_exists_dec labCARoot w) as [Hpair|Hpair];
    [by rewrite CreateRootCA_skip|].
  rewrite (CreateRootCA_bootstrap _ _ _ _ Hn Hpair).
  destruct (json_Unmarshal _ _) as [req|e]; [|done].
  destruct (initca_New req) as [[[crt csrPEM] key]|e]; [|done].
  cbn [snd]. rewrite !emit_fs, writeCertFiles_lookup.
  rewrite (root_paths labCARoot ".pem"), (root_paths labCARoot "-key.pem"),
    (root_paths labCARoot ".csr") by done.
  by rewrite !decide_False by done.
Qed.

(** X10. What [CreateRootCA] leaves alone: every path other than
    [labCARoot] and the three root files holds after the call what it
    held before, whatever the topology and the outcome. *)
Theorem CreateRootCA_frame (configName labCARoot : string)
    (ns : gmap string nodes.Node) (w : World) :
  ∀ p, p ≠ labCARoot →
       p ≠ filepath.Join labCARoot "root-ca.pem" →
       p ≠ filepath.Join labCARoot "root-ca-key.pem" →
       p ≠ filepath.Join labCARoot "root-ca.csr" →
       fs (cert.CreateRootCA configName labCARoot ns w).2 !! p = fs w !! p.
Proof. intros p. apply CreateRootCA_lookup_other. Qed.

(** X11. A bootstrap that fails does not pass for one that was done: when
    [CreateRootCA] returns an error, the error is the wrapped error of
    [GenerateRootCa], no file has been created or changed, and the two
    root files are still not both there, so that the next call tries
    again. *)
Theorem CreateRootCA_failure_leaves_no_pair (configName labCARoot : string)
    (ns : gmap string nodes.Node) (w w' : World) (e : error) :
  cert.CreateRootCA configName labCARoot ns w = (Some e, w') →
  (∃ e', e = Errorf "failed to generate rootCa: " e')
  ∧ (∀ p, file_at w' p = file_at w p)
  ∧ ¬ root_pair_exists labCARoot w'.
Proof.
  intros Hc.
  destruct (cert.hasCAKind ns) eqn:Hn;
    [|by rewrite CreateRootCA_not_needed in Hc].
  destruct (root_pair_exists_dec labCARoot w) as [Hpair|Hpair];
    [by rewrite CreateRootCA_skip in Hc|].
  rewrite (CreateRootCA_bootstrap _ _ _ _ Hn Hpair) in Hc.
  assert (w' = rootCAStarted labCARoot w ∧
          ∃ e', e = Errorf "failed to generate rootCa: " e') as [-> He].
  { destruct (json_Unmarshal _ _) as [req|e0];
      [destruct (initca_New req) as [[[crt csrPEM] key]|e0]|];
      simplify_eq; eauto. }
  split; [done|]. split.
  - intros p. unfold rootCAStarted. by rewrite CreateDirectory_files.
  - unfold root_pair_exists.
    by rewrite !rootCAStarted_lookup_file.
Qed.

(** X13. What a bootstrap logs: when [CreateRootCA] creates the root CA,
    the log grows by the announcement and three debug lines that spell
    out the CSR, the certificate and the private key now in the three
    root files. *)
Theorem CreateRootCA_logs_root_material (configName labCARoot : string)
    (ns : gmap string nodes.Node) (w w1 : World) :
  cert.hasCAKind ns = true →
  ¬ root_pair_exists labCARoot w →
  cert.CreateRootCA configName labCARoot ns w = (None, w1) →
  ∃ crt csrPEM key,
    file_at w1 (filepath.Join labCARoot "root-ca.pem") = Some crt
    ∧ file_at w1 (filepath.Join labCARoot "root-ca.csr") = Some csrPEM
    ∧ file_at w1 (filepath.Join labCARoot "root-ca-key.pem") = Some key
    ∧ logs w1 =
        logs w ++ [ (Info, "Creating root CA");
                    (Debug, "root CSR: " +:+ to_string csrPEM);
                    (Debug, "root Cert: " +:+ to_string crt);
                    (Debug, "root Key: " +:+ to_string key) ].
Proof.
  intros Hn Hpair Hc.
  rewrite (CreateRootCA_bootstrap _ _ _ _ Hn Hpair) in Hc.
  destruct (json_Unmarshal _ _) as [req|e]; [|done].
  destruct (initca_New req) as [[[crt csrPEM] key]|e]; [|done].
  cbv zeta in Hc. injection Hc as <-.
  pose proof (root_paths labCARoot ".pem" eq_refl) as E1.
  pose proof (root_paths labCARoot "-key.pem" eq_refl) as E2.
  pose proof (root_paths labCARoot ".csr" eq_refl) as E3.
  change ("root-ca" +:+ ".pem") with "root-ca.pem" in E1.
  change ("root-ca" +:+ "-key.pem") with "root-ca-key.pem" in E2.
  change ("root-ca" +:+ ".csr") with "root-ca.csr" in E3.
  rewrite <- E1, <- E2, <- E3.
  exists crt, csrPEM, key. unfold file_at.
  rewrite !emit_fs, !writeCertFiles_lookup.
  split; [by rewrite decide_True|]. split.
  { rewrite !decide_False by (by apply suffix_neq). by rewrite decide_True. }
  split.
  { rewrite decide_False by (by apply suffix_neq). by rewrite decide_True. }
  cbn [logs log.emit]. rewrite writeCertFiles_logs, rootCAStarted_logs.
  by rewrite <- !app_assoc.
Qed.

End BootstrapFacts.

Section TrustChain.
Context `{Externals}.

(** What the library is trusted for, as for chain validity: [initca.New]
    gives a CA certificate with its key, and a signer built from the
    files of such a pair signs certificates that validate against the
    pair's certificate. *)
Variable Verify : bytes → bytes → bool.
Variable root_pair : bytes → bytes → Prop.
Hypothesis initca_pair :
  ∀ req crt csrPEM key,
    initca_New req = Ok (crt, csrPEM, key) → root_pair crt key.
Hypothesis signer_sound :
  ∀ files ca caKey s rootCert rootKey req crt,
    root_pair rootCert rootKey →
    files !! ca = Some (File rootCert) →
    files !! caKey = Some (File rootKey) →
    universal_NewSigner files ca caKey = Ok s →
    Sign s req = Ok crt →
    Verify rootCert crt = true.

(** X12. From bootstrap to leaf: when [CreateRootCA] creates the root CA,
    a certificate that [GenerateCert] then issues against the two root
    files validates against the certificate in [root-ca.pem]. *)
Theorem bootstrap_then_issue_chains (configName labCARoot : string)
    (ns : gmap string nodes.Node) (tpl : template.Template)
    (input : cert.CertInput.t) (targetPath : string) (w w1 w2 : World)
    (certs : cert.Certificates) :
  cert.hasCAKind ns = true →
  ¬ root_pair_exists labCARoot w →
  cert.CreateRootCA configName labCARoot ns w = (None, w1) →
  cert.GenerateCert (filepath.Join labCARoot "root-ca.pem")
    (filepath.Join labCARoot "root-ca-key.pem") tpl input targetPath w1
    = ((Some certs, None), w2) →
  ∃ rootCert,
    file_at w1 (filepath.Join labCARoot "root-ca.pem") = Some rootCert
    ∧ Verify rootCert (cert.Cert certs) = true.
Proof.
  intros Hn Hpair Hc Hg.
  rewrite (CreateRootCA_bootstrap _ _ _ _ Hn Hpair) in Hc.
  destruct (json_Unmarshal _ _) as [req|e]; [|done].
  destruct (initca_New req) as [[[crt csrPEM] key]|e] eqn:Hca; [|done].
  cbv zeta in Hc. injection Hc as <-.
  pose proof (root_paths labCARoot ".pem" eq_refl) as E1.
  pose proof (root_paths labCARoot "-key.pem" eq_refl) as E2.
  change ("root-ca" +:+ ".pem") with "root-ca.pem" in E1.
  change ("root-ca" +:+ "-key.pem") with "root-ca-key.pem" in E2.
  rewrite <- E1, <- E2 in *.
  set (pem := filepath.Join labCARoot "root-ca" +:+ ".pem") in *.
  set (keyf := filepath.Join labCARoot "root-ca" +:+ "-key.pem") in *.
  set (w1 := log.emit _ _ _) in *.
  assert (fs w1 !! pem = Some (File crt)) as Hpem.
  { subst w1 pem. rewrite !emit_fs, writeCertFiles_lookup.
    by rewrite decide_True. }
  assert (fs w1 !! keyf = Some (File key)) as Hkey.
  { subst w1 keyf. rewrite !emit_fs, writeCertFiles_lookup.
    rewrite decide_False by (by apply suffix_neq).
    by rewrite decide_True. }
  exists crt. split; [unfold file_at; by rewrite Hpem|].
  apply GenerateCert_inv in Hg
    as [(e & _ & ? & _)|(req' & s & certs' & Hs & Ho & _)]; [done|].
  injection Ho as <-.
  destruct Hs as [b r c k s crt' _ _ _ Hsigner Hsign]. simpl.
  eapply signer_sound; [by eapply initca_pair| | |done..];
    by rewrite CreateDirectory_lookup, ?Hpem, ?Hkey.
Qed.

End TrustChain.

(** * The further properties on the small lab *)

Lemma GenerateCert_frame_witness :
  fs (Toy.issue "n1").2 !! Toy.caFile = fs Toy.withRoot !! Toy.caFile.
Proof.
  refine (proj1 (@GenerateCert_frame Toy.externals Toy.caFile Toy.caKeyFile
            Toy.leafTpl (Toy.leafInput "n1") (filepath.Join "lab/ca" "n1")
            Toy.withRoot) Toy.caFile _ _ _ _);
    intros Heq; vm_compute in Heq; discriminate Heq.
Defined.

Lemma RetrieveNodeCertData_cases_witness :
  (cert.RetrieveNodeCertData (Toy.config "n1" "srl") "lab/ca"
     Toy.occupied).1 = (None, None).
Proof.
  refine (proj2 (proj2 (proj2 (RetrieveNodeCertData_cases
            (Toy.config "n1" "srl") "lab/ca" Toy.occupied))) _).
  exists []. vm_compute; reflexivity.
Defined.

Lemma GenerateCert_node_layout_witness :
  file_at (Toy.issue "n1").2 "lab/ca/n1/n1.pem"
    = Some (cert.Cert (Toy.bundle "n1"))
  ∧ file_at (Toy.issue "n1").2 "lab/ca/n1/n1-key.pem"
    = Some (cert.Key (Toy.bundle "n1")).
Proof.
  pose proof (@GenerateCert_node_layout Toy.externals Toy.caFile
                Toy.caKeyFile Toy.leafTpl (Toy.leafInput "n1") "lab/ca" "n1"
                Toy.withRoot (Toy.issue "n1").2 (Toy.bundle "n1")) as Hl.
  cbv zeta in Hl.
  destruct Hl as (_ & H1 & H2 & _);
    [vm_compute; reflexivity..|].
  split; [exact H1|exact H2].
Defined.

Lemma GenerateCert_preserves_other_node_witness :
  (cert.RetrieveNodeCertData (Toy.config "n1" "srl") "lab/ca"
     (cert.GenerateCert (H:=Toy.externals) Toy.caFile Toy.caKeyFile
        Toy.leafTpl (Toy.leafInput "n2") (filepath.Join "lab/ca" "n2")
        (Toy.issue "n1").2).2).1
  = (cert.RetrieveNodeCertData (Toy.config "n1" "srl") "lab/ca"
       (Toy.issue "n1").2).1.
Proof.
  apply (@GenerateCert_preserves_other_node Toy.externals Toy.caFile
           Toy.caKeyFile Toy.leafTpl (Toy.leafInput "n2") "lab/ca"
           (Toy.config "n1" "srl") (Toy.issue "n1").2).
  - vm_compute; reflexivity.
  - vm_compute; reflexivity.
  - intros Heq; vm_compute in Heq; discriminate Heq.
Defined.

Lemma issue_two_nodes_then_retrieve_witness :
  let w2 :=
    (cert.GenerateCert (H:=Toy.externals) Toy.caFile Toy.caKeyFile
       Toy.leafTpl (Toy.leafInput "n2") (filepath.Join "lab/ca" "n2")
       (Toy.issue "n1").2).2 in
  (cert.RetrieveNodeCertData (Toy.config "n1" "srl") "lab/ca" w2).1 =
    (Some {| cert.Key := cert.Key (Toy.bundle "n1"); cert.Csr := [];
             cert.Cert := cert.Cert (Toy.bundle "n1") |}, None).
Proof.
  intros w2.
  refine (proj1 (@issue_two_nodes_then_retrieve Toy.externals Toy.caFile
            Toy.caKeyFile Toy.leafTpl Toy.leafTpl (Toy.leafInput "n1")
            (Toy.leafInput "n2") (Toy.config "n1" "srl")
            (Toy.config "n2" "srl") "lab/ca" Toy.withRoot (Toy.issue "n1").2
            w2 (Toy.bundle "n1")
            {| cert.Key := to_bytes ("KEY:" +:+ nodeCSRDoc (Toy.leafInput "n2"));
               cert.Csr := to_bytes ("CSR:" +:+ nodeCSRDoc (Toy.leafInput "n2"));
               cert.Cert :=
                 Toy.rootCert ++
                 to_bytes (">" +:+ "CSR:" +:+ nodeCSRDoc (Toy.leafInput "n2")) |}
            _ _ _ _ _ _ _ _ _));
    try (vm_compute; reflexivity).
  intros Heq; vm_compute in Heq; discriminate Heq.
Defined.

Lemma CreateRootCA_frame_witness :
  fs (cert.CreateRootCA (H:=Toy.externals) "lab" "lab/ca/root"
        Toy.srlLab Toy.occupied).2 !! "lab/ca/n1"
  = fs Toy.occupied !! "lab/ca/n1".
Proof.
  apply (@CreateRootCA_frame Toy.externals "lab" "lab/ca/root" Toy.srlLab
           Toy.occupied "lab/ca/n1");
    intros Heq; vm_compute in Heq; discriminate Heq.
Defined.

Lemma CreateRootCA_failure_leaves_no_pair_witness :
  ¬ root_pair_exists "lab/ca/root"
      (cert.CreateRootCA (H:=ToyFail.externals) "lab" "lab/ca/root"
         Toy.srlLab Toy.empty).2.
Proof.
  refine (proj2 (proj2 (@CreateRootCA_failure_leaves_no_pair
            ToyFail.externals "lab" "lab/ca/root" Toy.srlLab Toy.empty
            (cert.CreateRootCA (H:=ToyFail.externals) "lab" "lab/ca/root"
               Toy.srlLab Toy.empty).2
            (Errorf "failed to generate rootCa: "
               (ErrLib "failed to generate key")) _))).
  vm_compute; reflexivity.
Defined.

Lemma toy_initca_pair (req : csr.CertificateRequest) (crt csrPEM key : bytes) :
  Toy.newCA req = Ok (crt, csrPEM, key) → Toy.root_pair crt key.
Proof. done. Qed.

Lemma toy_no_root_pair : ¬ root_pair_exists "lab/ca/root" Toy.empty.
Proof. intros [[e He] _]. vm_compute in He. discriminate He. Qed.

Lemma bootstrap_then_issue_chains_witness :
  ∃ rootCert,
    file_at Toy.withRoot Toy.caFile = Some rootCert
    ∧ Toy.verify rootCert (cert.Cert (Toy.bundle "n1")) = true.
Proof.
  apply (@bootstrap_then_issue_chains Toy.externals Toy.verify Toy.root_pair
           toy_initca_pair toy_signer_sound "lab" "lab/ca/root" Toy.srlLab
           Toy.leafTpl (Toy.leafInput "n1") (filepath.Join "lab/ca" "n1")
           Toy.empty Toy.withRoot (Toy.issue "n1").2 (Toy.bundle "n1")).
  - vm_compute; reflexivity.
  - exact toy_no_root_pair.
  - vm_compute; reflexivity.
  - vm_compute; reflexivity.
Defined.

Lemma CreateRootCA_logs_root_material_witness :
  ∃ crt csrPEM key,
    file_at Toy.withRoot (filepath.Join "lab/ca/root" "root-ca.pem") = Some crt
    ∧ file_at Toy.withRoot (filepath.Join "lab/ca/root" "root-ca.csr")
        = Some csrPEM
    ∧ file_at Toy.withRoot (filepath.Join "lab/ca/root" "root-ca-key.pem")
        = Some key
    ∧ logs Toy.withRoot =
        logs Toy.empty ++ [ (Info, "Creating root CA");
                            (Debug, "root CSR: " +:+ to_string csrPEM);
                            (Debug, "root Cert: " +:+ to_string crt);
                            (Debug, "root Key: " +:+ to_string key) ].
Proof.
  apply (@CreateRootCA_logs_root_material Toy.externals "lab" "lab/ca/root"
           Toy.srlLab Toy.empty Toy.withRoot).
  - vm_compute; reflexivity.
  - exact toy_no_root_pair.
  - vm_compute; reflexivity.
Defined.
